(** * Musubi FLUX Klein LoRA trainer: fingerprint, artifact cache and pipeline

    A shallow embedding of [musubi_flux_klein_lora_trainer.py]: the
    fingerprint of a training request ([_compute_image_hash]), the
    persistent artifact cache, the staging of samples, the three external
    stages and the resolution of the trained artifact
    ([train_flux_klein_lora]).

    Python [str] values are represented by their UTF-8 encoding, a Rocq
    [string]; concatenation, [startswith], [endswith], equality and
    [encode('utf-8')] are then the operations on the bytes, and
    [strip], reading a text file and [sorted] take the encoding into
    account.  The arguments of a call are taken to be well-formed [str]
    values, that is valid UTF-8. *)

From Stdlib Require Import ZArith List String Ascii Lia Bool.
From Stdlib.Strings Require Import Byte.
From stdpp Require Import base decidable option list strings pretty gmap
  fin_maps sorting.

Local Open Scope Z_scope.
Local Open Scope string_scope.

(** ** SHA-256 ([hashlib.sha256]) *)

Module Sha256.

Definition mask32 : Z := 4294967295.
Definition w32 (x : Z) : Z := Z.land x mask32.
Definition add32 (x y : Z) : Z := w32 (x + y).
Definition rotr (n x : Z) : Z :=
  Z.lor (Z.shiftr x n) (w32 (Z.shiftl x (32 - n))).
Definition shr (n x : Z) : Z := Z.shiftr x n.
Definition not32 (x : Z) : Z := Z.lxor x mask32.

Definition Ch (x y z : Z) : Z :=
  Z.lxor (Z.land x y) (Z.land (not32 x) z).
Definition Maj (x y z : Z) : Z :=
  Z.lxor (Z.lxor (Z.land x y) (Z.land x z)) (Z.land y z).
Definition bsig0 (x : Z) : Z :=
  Z.lxor (Z.lxor (rotr 2 x) (rotr 13 x)) (rotr 22 x).
Definition bsig1 (x : Z) : Z :=
  Z.lxor (Z.lxor (rotr 6 x) (rotr 11 x)) (rotr 25 x).
Definition ssig0 (x : Z) : Z :=
  Z.lxor (Z.lxor (rotr 7 x) (rotr 18 x)) (shr 3 x).
Definition ssig1 (x : Z) : Z :=
  Z.lxor (Z.lxor (rotr 17 x) (rotr 19 x)) (shr 10 x).

(** The first 64 primes. *)
Definition is_prime (n : Z) : bool :=
  forallb (fun d => negb (Z.eqb (n mod d) 0)) (seqZ 2 (n - 2)).
Definition primes : list Z :=
  Eval vm_compute in List.filter is_prime (seqZ 2 310).

(** The greatest [r] below [2 ^ bits] with [r ^ 3 <= x]. *)
Fixpoint cube_root (bits : nat) (x r : Z) : Z :=
  match bits with
  | O => r
  | S b =>
      let r' := r + Z.shiftl 1 (Z.of_nat b) in
      cube_root b x (if Z.leb (r' * r' * r') x then r' else r)
  end.

(** The round constants: the first 32 bits of the fractional parts of
    the cube roots of the primes. *)
Definition K : list Z :=
  Eval vm_compute in map (fun p => w32 (cube_root 40 (Z.shiftl p 96) 0)) primes.

Record state := State
  { ha : Z; hb : Z; hc : Z; hd : Z; he : Z; hf : Z; hg : Z; hh : Z }.

(** The initial state: the first 32 bits of the fractional parts of the
    square roots of the first 8 primes. *)
Definition frac_sqrt (p : Z) : Z := w32 (Z.sqrt (Z.shiftl p 64)).
Definition H0 : state :=
  Eval vm_compute in
    State (frac_sqrt 2) (frac_sqrt 3) (frac_sqrt 5) (frac_sqrt 7)
          (frac_sqrt 11) (frac_sqrt 13) (frac_sqrt 17) (frac_sqrt 19).

(** The message schedule, most recent word first. *)
Fixpoint extend (n : nat) (rw : list Z) : list Z :=
  match n with
  | O => rw
  | S n' =>
      let w := add32 (add32 (ssig1 (nth 1 rw 0)) (nth 6 rw 0))
                     (add32 (ssig0 (nth 14 rw 0)) (nth 15 rw 0)) in
      extend n' (w :: rw)
  end.

Definition schedule (block : list Z) : list Z :=
  rev (extend 48 (rev block)).

Definition round (s : state) (kw : Z * Z) : state :=
  let t1 := add32 (add32 (add32 (hh s) (bsig1 (he s)))
                         (add32 (Ch (he s) (hf s) (hg s)) (fst kw)))
                  (snd kw) in
  let t2 := add32 (bsig0 (ha s)) (Maj (ha s) (hb s) (hc s)) in
  State (add32 t1 t2) (ha s) (hb s) (hc s)
        (add32 (hd s) t1) (he s) (hf s) (hg s).

Definition compress (s : state) (block : list Z) : state :=
  let r := fold_left round (combine K (schedule block)) s in
  State (add32 (ha s) (ha r)) (add32 (hb s) (hb r))
        (add32 (hc s) (hc r)) (add32 (hd s) (hd r))
        (add32 (he s) (he r)) (add32 (hf s) (hf r))
        (add32 (hg s) (hg r)) (add32 (hh s) (hh r)).

(** Big-endian bytes of the low [8 * n] bits of [x]. *)
Fixpoint be_bytes (n : nat) (x : Z) : list Z :=
  match n with
  | O => []
  | S n' => Z.land (Z.shiftr x (8 * Z.of_nat n')) 255 :: be_bytes n' x
  end.

Definition pad (msg : list Z) : list Z :=
  let len := Z.of_nat (length msg) in
  let k := Z.to_nat ((55 - len) mod 64) in
  (msg ++ 128 :: repeat 0 k ++ be_bytes 8 (8 * len))%list.

Fixpoint words (n : nat) (bs : list Z) : list Z :=
  match n with
  | O => []
  | S n' =>
      match bs with
      | b0 :: b1 :: b2 :: b3 :: rest =>
          (Z.shiftl b0 24 + Z.shiftl b1 16 + Z.shiftl b2 8 + b3)
            :: words n' rest
      | _ => []
      end
  end.

Fixpoint blocks (n : nat) (s : state) (bs : list Z) : state :=
  match n with
  | O => s
  | S n' =>
      match bs with
      | [] => s
      | _ => blocks n' (compress s (words 16 (firstn 64 bs))) (skipn 64 bs)
      end
  end.

Definition digest (msg : list Z) : state :=
  let p := pad msg in
  blocks (length p) H0 p.

Definition hex_digit (x : Z) : ascii :=
  let n := Z.to_nat (Z.land x 15) in
  nth n [ "0"; "1"; "2"; "3"; "4"; "5"; "6"; "7";
          "8"; "9"; "a"; "b"; "c"; "d"; "e"; "f" ]%char "0"%char.

Definition hex_word (w : Z) (tl : string) : string :=
  String (hex_digit (Z.shiftr w 28)) (String (hex_digit (Z.shiftr w 24))
 (String (hex_digit (Z.shiftr w 20)) (String (hex_digit (Z.shiftr w 16))
 (String (hex_digit (Z.shiftr w 12)) (String (hex_digit (Z.shiftr w 8))
 (String (hex_digit (Z.shiftr w 4)) (String (hex_digit w) tl))))))).

Definition hex_state (s : state) : string :=
  hex_word (ha s) (hex_word (hb s) (hex_word (hc s) (hex_word (hd s)
 (hex_word (he s) (hex_word (hf s) (hex_word (hg s) (hex_word (hh s)
  ""))))))).

Definition byte_val (b : byte) : Z := Z.of_N (Byte.to_N b).

Definition hexdigest (msg : list byte) : string :=
  hex_state (digest (map byte_val msg)).

End Sha256.

(** ** Python built-ins used by the trainer *)

Module Py.

(** [str(n)] and [f"{n}"] for an [int]. *)
Definition str_int (n : Z) : string := pretty n.

(** A Python [float], carried by the text [str] and f-strings print for
    it: the shortest decimal that reads back as the same float. *)
Record float := Float { float_repr : string }.

Definition str_float (x : float) : string := float_repr x.

(** [sep.join(l)] *)
Fixpoint join (sep : string) (l : list string) : string :=
  match l with
  | [] => ""
  | [s] => s
  | s :: rest => s ++ sep ++ join sep rest
  end.

(** [s.encode('utf-8')] *)
Definition encode (s : string) : list byte := list_byte_of_string s.

(** [s.startswith(p)] and [s.endswith(p)] *)
Definition startswith (s p : string) : bool := String.prefix p s.
Definition endswith (s p : string) : bool :=
  String.prefix (String.rev p) (String.rev s).

(** [s.lower()] on the ASCII letters, which is all the trainer needs of
    it: it only asks whether the lowered name ends with an ASCII
    extension, and no other character lowers to one of those letters. *)
Definition lower_char (c : ascii) : ascii :=
  let n := nat_of_ascii c in
  if (Nat.leb 65 n && Nat.leb n 90)%bool then ascii_of_nat (n + 32) else c.
Fixpoint lower (s : string) : string :=
  match s with
  | EmptyString => EmptyString
  | String c r => String (lower_char c) (lower r)
  end.

(** [s.strip()].  The characters [str.isspace] accepts are U+0009 to
    U+000D, U+001C to U+0020, U+0085, U+00A0, U+1680, U+2000 to U+200A,
    U+2028, U+2029, U+202F, U+205F and U+3000.  In UTF-8 the first two
    ranges take one byte, U+0085 and U+00A0 two (C2 85, C2 A0), and the
    others three (E1 9A 80; E2 80 80 to E2 80 8A, E2 80 A8, E2 80 A9,
    E2 80 AF; E2 81 9F; E3 80 80). *)
Definition isspace (c : ascii) : bool :=
  let n := nat_of_ascii c in
  (Nat.leb 9 n && Nat.leb n 13 || Nat.leb 28 n && Nat.leb n 32)%bool.
Definition isspace2 (c1 c2 : ascii) : bool :=
  let n2 := nat_of_ascii c2 in
  (Nat.eqb (nat_of_ascii c1) 194 && (Nat.eqb n2 133 || Nat.eqb n2 160))%bool.
Definition isspace3 (c1 c2 c3 : ascii) : bool :=
  let n1 := nat_of_ascii c1 in
  let n2 := nat_of_ascii c2 in
  let n3 := nat_of_ascii c3 in
  (Nat.eqb n1 225 && Nat.eqb n2 154 && Nat.eqb n3 128
   || Nat.eqb n1 226 && Nat.eqb n2 128
      && (Nat.leb 128 n3 && Nat.leb n3 138
          || Nat.eqb n3 168 || Nat.eqb n3 169 || Nat.eqb n3 175)
   || Nat.eqb n1 226 && Nat.eqb n2 129 && Nat.eqb n3 159
   || Nat.eqb n1 227 && Nat.eqb n2 128 && Nat.eqb n3 128)%bool.

(** The white space at the front of [s] removed; with [back] set, [s] is
    a reversed string and the bytes of a character come last byte first. *)
Fixpoint strip_front (back : bool) (s : string) : string :=
  match s with
  | String c1 r1 =>
      if isspace c1 then strip_front back r1
      else
        match r1 with
        | String c2 r2 =>
            if (if back then isspace2 c2 c1 else isspace2 c1 c2)
            then strip_front back r2
            else
              match r2 with
              | String c3 r3 =>
                  if (if back then isspace3 c3 c2 c1 else isspace3 c1 c2 c3)
                  then strip_front back r3
                  else s
              | EmptyString => s
              end
        | EmptyString => s
        end
  | EmptyString => EmptyString
  end.
Definition lstrip (s : string) : string := strip_front false s.
Definition rstrip (s : string) : string :=
  String.rev (strip_front true (String.rev s)).
Definition strip (s : string) : string := rstrip (lstrip s).

(** [b.decode('utf-8')], strict: [None] when it raises
    [UnicodeDecodeError].  The well-formed byte sequences are those of
    the Unicode standard: no overlong form, no surrogate, nothing above
    U+10FFFF. *)
Definition between (lo n hi : nat) : bool := (Nat.leb lo n && Nat.leb n hi)%bool.
Definition continuation (c : ascii) : bool := between 128 (nat_of_ascii c) 191.
Definition second_of_three (n1 n2 : nat) : bool :=
  if Nat.eqb n1 224 then between 160 n2 191
  else if Nat.eqb n1 237 then between 128 n2 159
  else between 128 n2 191.
Definition second_of_four (n1 n2 : nat) : bool :=
  if Nat.eqb n1 240 then between 144 n2 191
  else if Nat.eqb n1 244 then between 128 n2 143
  else between 128 n2 191.
Fixpoint valid_utf8 (b : string) : bool :=
  match b with
  | EmptyString => true
  | String c1 r1 =>
      let n1 := nat_of_ascii c1 in
      if Nat.leb n1 127 then valid_utf8 r1
      else
        match r1 with
        | EmptyString => false
        | String c2 r2 =>
            let n2 := nat_of_ascii c2 in
            if between 194 n1 223 then (continuation c2 && valid_utf8 r2)%bool
            else
              match r2 with
              | EmptyString => false
              | String c3 r3 =>
                  if between 224 n1 239
                  then (second_of_three n1 n2 && continuation c3
                        && valid_utf8 r3)%bool
                  else
                    match r3 with
                    | EmptyString => false
                    | String c4 r4 =>
                        (between 240 n1 244 && second_of_four n1 n2
                         && continuation c3 && continuation c4
                         && valid_utf8 r4)%bool
                    end
              end
        end
  end.
Definition decode (b : string) : option string :=
  if valid_utf8 b then Some b else None.

(** What reading in text mode does to the line ends ([newline=None]):
    [\r\n] and [\r] become [\n]. *)
Fixpoint universal_newlines (s : string) : string :=
  match s with
  | EmptyString => EmptyString
  | String c r =>
      if Nat.eqb (nat_of_ascii c) 13 then
        String (ascii_of_nat 10)
          match r with
          | String c2 r2 =>
              if Nat.eqb (nat_of_ascii c2) 10 then universal_newlines r2
              else universal_newlines r
          | EmptyString => EmptyString
          end
      else String c (universal_newlines r)
  end.

(** Truthiness of a [str]. *)
Definition truthy (s : string) : bool :=
  match s with EmptyString => false | _ => true end.

(** [s[:n]] *)
Fixpoint take (n : nat) (s : string) : string :=
  match n, s with
  | S n', String c r => String c (take n' r)
  | _, _ => EmptyString
  end.

(** [f"{n:03d}"] for a non-negative [n]. *)
Definition fmt_03d (n : nat) : string :=
  let s := str_int (Z.of_nat n) in
  match String.length s with
  | 1%nat => "00" ++ s
  | 2%nat => "0" ++ s
  | _ => s
  end.

(** [c.isdigit()] on ASCII, and [s] being made of such characters. *)
Definition isdigit (c : ascii) : bool :=
  let n := nat_of_ascii c in (Nat.leb 48 n && Nat.leb n 57)%bool.
Fixpoint all_digits (s : string) : bool :=
  match s with
  | EmptyString => true
  | String c r => (isdigit c && all_digits r)%bool
  end.

(** The last character of [s], [s[-1]]. *)
Fixpoint last_char (s : string) : option ascii :=
  match s with
  | EmptyString => None
  | String c EmptyString => Some c
  | String _ r => last_char r
  end.

End Py.

(** ** [os.path] of a POSIX host ([sys.platform != 'win32']) *)

Module OsPath.

(** [os.path.join(a, b)] *)
Definition join (a b : string) : string :=
  if Py.startswith b "/" then b
  else if (negb (Py.truthy a) || Py.endswith a "/")%bool then a ++ b
  else a ++ "/" ++ b.

Definition join3 (a b c : string) : string := join (join a b) c.
Definition join4 (a b c d : string) : string := join (join3 a b c) d.

(** [os.path.isabs(p)] *)
Definition isabs (p : string) : bool := Py.startswith p "/".

(** [os.path.splitext(p)]: the scan of [genericpath._splitext], on the
    reversed path.  [rext] is the candidate extension read so far,
    without its dot. *)
Fixpoint all_dots_to_sep (r : string) : bool :=
  match r with
  | EmptyString => true
  | String c r' =>
      if Ascii.eqb c "/" then true
      else if Ascii.eqb c "." then all_dots_to_sep r' else false
  end.

Fixpoint splitext_rev (r : string) (rext : string) : option (string * string) :=
  match r with
  | EmptyString => None
  | String c r' =>
      if Ascii.eqb c "/" then None
      else if Ascii.eqb c "." then
        if all_dots_to_sep r' then None
        else Some (String.rev r', String "." rext)
      else splitext_rev r' (String c rext)
  end.

Definition splitext (p : string) : string * string :=
  match splitext_rev (String.rev p) "" with
  | Some re => re
  | None => (p, "")
  end.

End OsPath.

(** ** The file system *)

(** A path names a file, with its text and modification time, or a
    directory, with the names [os.listdir] returns in the order it returns
    them. *)
Inductive body :=
  | File (content : string)
  | Dir (entries : list string).

Record node := Node { mtime : Py.float; nbody : body }.

Abbreviation FS := (gmap string node).

Module Os.

(** [os.path.exists(p)] *)
Definition exists_ (fs : FS) (p : string) : bool :=
  bool_decide (is_Some (fs !! p)).

(** [os.path.isdir(p)] *)
Definition isdir (fs : FS) (p : string) : bool :=
  match fs !! p with
  | Some (Node _ (Dir _)) => true
  | _ => false
  end.

(** [os.listdir(p)]; [None] when it raises. *)
Definition listdir (fs : FS) (p : string) : option (list string) :=
  match fs !! p with
  | Some (Node _ (Dir es)) => Some es
  | _ => None
  end.

(** The bytes of the regular file at [p], [open(p, 'rb').read()];
    [None] when it raises. *)
Definition read (fs : FS) (p : string) : option string :=
  match fs !! p with
  | Some (Node _ (File c)) => Some c
  | _ => None
  end.

End Os.

(** ** The fingerprint of a request *)

(** An [IMAGE] input, given by the [uint8] array
    [(img_tensor[0].cpu().numpy() * 255).astype(np.uint8)] of lines 100
    and 511: its shape (height, width, channels) and its elements in C
    order.  The conversion itself is torch's and numpy's and is not part
    of this development: an input whose conversion raises (a tensor that
    requires grad, for one) has no counterpart here, so nothing below
    speaks of the exceptions of these two lines. *)
Record image := Image { img_shape : nat * nat * nat; img_np : list byte }.

(** [img_np.tobytes()] *)
Definition tobytes (img : image) : list byte := img_np img.

(** The [images] argument together with [use_folder_path]: paths when the
    flag is set, tensors otherwise. *)
Inductive samples :=
  | FolderImages (paths : list string)
  | TensorImages (imgs : list image).

Definition num_samples (s : samples) : nat :=
  match s with
  | FolderImages ps => length ps
  | TensorImages ts => length ts
  end.

(** A [hashlib] object is the message it was fed so far. *)
Definition hasher := list byte.
Definition update (h : hasher) (b : list byte) : hasher := (h ++ b)%list.

Record hash_args := HashArgs
  { h_images : samples;
    h_captions : list string;
    h_training_steps : Z;
    h_learning_rate : Py.float;
    h_lora_rank : Z;
    h_vram_mode : string;
    h_output_name : string;
    h_model_variant : string;
    h_dit_model : string;
    h_vae_model : string;
    h_text_encoder : string;
    h_blocks_to_swap : Z }.

(** Lines 91-102: the image part of the message. *)
Definition hash_images (fs : FS) (images : samples) : hasher :=
  match images with
  | FolderImages paths =>
      fold_left (fun h img_path =>
                   let h := update h (Py.encode img_path) in
                   match fs !! img_path with
                   | Some n => update h (Py.encode (Py.str_float (mtime n)))
                   | None => h
                   end) paths []
  | TensorImages imgs =>
      fold_left (fun h img_tensor => update h (tobytes img_tensor)) imgs []
  end.

(** Lines 105-106. *)
Definition params_str (a : hash_args) : string :=
  let captions_str := Py.join "|" (h_captions a) in
  "musubi_flux_klein|" ++ h_model_variant a ++ "|" ++ captions_str ++ "|"
  ++ Py.str_int (h_training_steps a) ++ "|"
  ++ Py.str_float (h_learning_rate a) ++ "|"
  ++ Py.str_int (h_lora_rank a) ++ "|" ++ h_vram_mode a ++ "|"
  ++ h_output_name a ++ "|"
  ++ Py.str_int (Z.of_nat (num_samples (h_images a))) ++ "|"
  ++ h_dit_model a ++ "|" ++ h_vae_model a ++ "|" ++ h_text_encoder a ++ "|"
  ++ Py.str_int (h_blocks_to_swap a).

(** The whole message the hasher has received at line 109. *)
Definition hash_message (fs : FS) (a : hash_args) : list byte :=
  update (hash_images fs (h_images a)) (Py.encode (params_str a)).

Definition _compute_image_hash (fs : FS) (a : hash_args) : string :=
  Py.take 16 (Sha256.hexdigest (hash_message fs a)).

(** ** Requests, tables and the host *)

(** A value of [**kwargs]: the [image_i] and [caption_i] inputs. *)
Inductive kwval :=
  | KImage (img : image)
  | KStr (s : string).

(** The arguments of [train_flux_klein_lora]. *)
Record request := Request
  { model_variant : string;
    inputcount : Z;
    images_path : string;
    musubi_path : string;
    dit_model : string;
    vae_model : string;
    text_encoder : string;
    caption : string;
    training_steps : Z;
    learning_rate : Py.float;
    lora_rank : Z;
    blocks_to_swap : Z;
    vram_mode : string;
    keep_lora : bool;
    output_name : string;
    custom_python_exe : string;
    image_1 : option image;
    kwargs : gmap string kwval }.

(** An entry of [FLUX_KLEIN_VARIANTS]. *)
Record variant := Variant
  { model_version : string;
    max_blocks_to_swap : Z }.

(** An entry of [MUSUBI_FLUX_KLEIN_VRAM_PRESETS]; the two keys the trainer
    reads with [preset.get] may be absent. *)
Record preset := Preset
  { p_optimizer : string;
    p_mixed_precision : string;
    p_batch_size : Z;
    p_gradient_checkpointing : bool;
    p_fp8_scaled : bool;
    p_fp8_text_encoder : option bool;
    p_blocks_to_swap : option Z;
    p_resolution : Z }.

(** What the module imports and the machine it runs on: the two tables and
    the two functions of [musubi_flux_klein_config_template], ComfyUI's
    [folder_paths.get_full_path] ([None] when it raises, [Some None] when
    it returns [None]), [os.path.expanduser], [tempfile.gettempdir()],
    PIL's PNG encoder, and the external tool: [run_process cmd cwd fs] is
    the exit code of the child and the file system it leaves, or [None]
    when [Popen] raises. *)
Record host := Host
  { FLUX_KLEIN_VARIANTS : gmap string variant;
    MUSUBI_FLUX_KLEIN_VRAM_PRESETS : gmap string preset;
    generate_dataset_config : string -> Z -> Z -> bool -> string;
    get_full_path : string -> string -> option (option string);
    expanduser : string -> string;
    gettempdir : string;
    png_encode : image -> string;
    run_process : list string -> string -> FS -> option (Z * FS) }.

(** ** The state of the process and its exceptions *)

Inductive error :=
  | ValueError (msg : string)
  | FileNotFoundError (msg : string)
  | RuntimeError (msg : string)
  | KeyError (msg : string)
  | OSError (msg : string)
  | UnicodeDecodeError (msg : string).

(** [trainer_settings] of the configuration store. *)
Record settings := Settings
  { s_musubi_path : string;
    s_request : request }.

Record world := World
  { w_fs : FS;
    (** [_musubi_flux_klein_lora_cache] *)
    w_cache : gmap string string;
    (** the mapping last written to [.musubi_flux_klein_lora_cache.json] *)
    w_cache_file : gmap string string;
    (** [_musubi_flux_klein_config] as last saved *)
    w_config : option settings;
    (** the child processes started so far, oldest first, each with its
        argument list and working directory *)
    w_spawned : list (list string * string);
    (** [datetime.now().strftime('%Y%m%d_%H%M%S')] *)
    w_now : string;
    (** the modification time given to the files written *)
    w_clock : Py.float }.

Definition set_fs (f : FS -> FS) (w : world) : world :=
  World (f (w_fs w)) (w_cache w) (w_cache_file w) (w_config w)
        (w_spawned w) (w_now w) (w_clock w).
Definition set_cache (f : gmap string string -> gmap string string)
    (w : world) : world :=
  World (w_fs w) (f (w_cache w)) (w_cache_file w) (w_config w)
        (w_spawned w) (w_now w) (w_clock w).

(** A computation reads and writes the world and returns or raises. *)
Inductive result (A : Type) :=
  | Ok (a : A)
  | Raise (e : error).
Arguments Ok {A} a.
Arguments Raise {A} e.

Definition M (A : Type) : Type := world -> result A * world.

Definition ret {A} (a : A) : M A := fun w => (Ok a, w).
Definition raise {A} (e : error) : M A := fun w => (Raise e, w).
Definition bind {A B} (m : M A) (k : A -> M B) : M B :=
  fun w => match m w with
           | (Ok a, w') => k a w'
           | (Raise e, w') => (Raise e, w')
           end.
Definition get : M world := fun w => (Ok w, w).
Definition modify (f : world -> world) : M unit := fun w => (Ok tt, f w).
(** [try: m finally: c]: [c] runs whatever [m] ends with, and an
    exception of [c] takes the place of the outcome of [m]. *)
Definition finally {A} (m : M A) (c : M unit) : M A :=
  fun w => let '(r, w') := m w in
           match c w' with
           | (Ok _, w'') => (r, w'')
           | (Raise e, w'') => (Raise e, w'')
           end.
(** [try: m except Exception as e: print(...)] *)
Definition swallow (m : M unit) : M unit :=
  fun w => match m w with
           | (Ok _, w') => (Ok tt, w')
           | (Raise _, w') => (Ok tt, w')
           end.
Definition when_ (b : bool) (m : M unit) : M unit :=
  if b then m else ret tt.

Global Instance M_ret : MRet M := @ret.
Global Instance M_bind : MBind M := fun A B k m => bind m k.

(** ** Writing to the file system *)

Module Fs.

Definition add_entry (name : string) (n : node) : node :=
  match nbody n with
  | Dir es =>
      if bool_decide (name ∈ es) then n
      else Node (mtime n) (Dir (es ++ [name])%list)
  | File _ => n
  end.

(** [open(os.path.join(dir, name), 'w').write(content)] *)
Definition write_file (dir name content : string) (t : Py.float)
    (fs : FS) : FS :=
  <[OsPath.join dir name := Node t (File content)]>
    (alter (add_entry name) dir fs).

(** [shutil.copy2(src, os.path.join(dir, name))]; [None] when it raises. *)
Definition copy2 (src dir name : string) (fs : FS) : option FS :=
  match fs !! src with
  | Some (Node t (File c)) => Some (write_file dir name c t fs)
  | _ => None
  end.

(** [os.makedirs(p, exist_ok=True)]; [None] when it raises. *)
Definition makedirs (p : string) (t : Py.float) (fs : FS) : option FS :=
  match fs !! p with
  | Some (Node _ (Dir _)) => Some fs
  | Some (Node _ (File _)) => None
  | None => Some (<[p := Node t (Dir [])]> fs)
  end.

(** [p] is [root] or lies below it. *)
Definition under (root p : string) : bool :=
  (bool_decide (p = root) || Py.startswith p (root ++ "/"))%bool.

(** [shutil.rmtree(root)]: a directory goes with all that lies below it;
    [None] when it raises, [root] being a regular file or missing.
    Permissions, and with them a removal that stops half way, are not
    part of the file system here. *)
Definition rmtree (root : string) (fs : FS) : option FS :=
  if Os.isdir fs root
  then Some (filter (fun kv => under root kv.1 = false) fs)
  else None.

(** The first counter from [counter] on whose path is free, trying
    [fuel] of them. *)
Fixpoint first_free (fuel : nat) (fs : FS) (mk : Z -> string)
    (counter : Z) : option Z :=
  match fuel with
  | O => None
  | S fuel' =>
      if Os.exists_ fs (mk counter)
      then first_free fuel' fs mk (counter + 1)
      else Some counter
  end.

(** [while os.path.exists(mk(counter)): counter += 1], started at
    [start].  One more try than the file system has paths is always
    enough ([next_free_spec]). *)
Definition next_free (fs : FS) (mk : Z -> string) (start : Z) : Z :=
  default start (first_free (S (size fs)) fs mk start).

(** [tempfile.mkdtemp(prefix=prefix)] under [tmp]: a directory that did
    not exist.  The name is the prefix and the first number that is
    free, where Python draws random characters. *)
Definition temp_name (tmp prefix : string) (k : Z) : string :=
  OsPath.join tmp (prefix ++ Py.str_int k).

Definition mkdtemp (tmp prefix : string) (t : Py.float) (fs : FS)
    : string * FS :=
  let p := temp_name tmp prefix (next_free fs (temp_name tmp prefix) 0) in
  (p, <[p := Node t (Dir [])]> fs).

End Fs.

(** ** Resolving the samples (lines 358-408) *)

Definition image_extensions : list string :=
  [".png"; ".jpg"; ".jpeg"; ".webp"; ".bmp"].

(** [filename.lower().endswith(image_extensions)] *)
Definition is_image_file (filename : string) : bool :=
  existsb (Py.endswith (Py.lower filename)) image_extensions.

(** [sorted(names)] *)
Definition sorted (names : list string) : list string :=
  merge_sort String.le names.

(** [open(p, 'r', encoding='utf-8').read()]: the bytes decoded, with the
    line ends of text mode. *)
Definition read_text (fs : FS) (p : string) : result string :=
  match Os.read fs p with
  | Some b =>
      match Py.decode b with
      | Some text => Ok (Py.universal_newlines text)
      | None => Raise (UnicodeDecodeError p)
      end
  | None => Raise (OSError p)
  end.

(** The caption of one image of the folder: the same stem with [.txt],
    read as text and stripped, when that path exists, the default caption
    otherwise. *)
Definition folder_caption (fs : FS) (images_path caption filename : string)
    : result string :=
  let base_name := (OsPath.splitext filename).1 in
  let caption_file := OsPath.join images_path (base_name ++ ".txt") in
  if Os.exists_ fs caption_file then
    match read_text fs caption_file with
    | Ok text => Ok (Py.strip text)
    | Raise e => Raise e
    end
  else Ok caption.

(** The loop of lines 368-380 over the sorted names: [folder_images] and
    [folder_captions]. *)
Fixpoint scan_folder (fs : FS) (images_path caption : string)
    (names : list string) : result (list string * list string) :=
  match names with
  | [] => Ok ([], [])
  | filename :: rest =>
      if is_image_file filename then
        match folder_caption fs images_path caption filename with
        | Raise e => Raise e
        | Ok cap =>
            match scan_folder fs images_path caption rest with
            | Raise e => Raise e
            | Ok (imgs, caps) =>
                Ok (OsPath.join images_path filename :: imgs, cap :: caps)
            end
        end
      else scan_folder fs images_path caption rest
  end.

Definition kw_image (kw : gmap string kwval) (k : string) : option image :=
  match kw !! k with
  | Some (KImage img) => Some img
  | _ => None
  end.

(** [kwargs.get(k, "")] *)
Definition kw_caption (kw : gmap string kwval) (k : string) : string :=
  match kw !! k with
  | Some (KStr s) => s
  | _ => ""
  end.

(** [cap if cap else caption] *)
Definition or_default (cap caption : string) : string :=
  if Py.truthy cap then cap else caption.

(** Lines 392-405: [all_images] and [all_captions]. *)
Definition collect_inputs (r : request) : list (image * string) :=
  let first :=
    match image_1 r with
    | Some img =>
        [(img, or_default (kw_caption (kwargs r) "caption_1") (caption r))]
    | None => []
    end in
  let rest :=
    omap (fun i =>
            match kw_image (kwargs r) ("image_" ++ Py.str_int i) with
            | Some img =>
                Some (img, or_default
                             (kw_caption (kwargs r) ("caption_" ++ Py.str_int i))
                             (caption r))
            | None => None
            end)
         (seqZ 2 (inputcount r - 1)) in
  (first ++ rest)%list.

(** The image connected at input [i], and the caption that goes with
    it. *)
Definition input_image (r : request) (i : Z) : option image :=
  if (i =? 1)%Z then image_1 r
  else kw_image (kwargs r) ("image_" ++ Py.str_int i).
Definition input_caption (r : request) (i : Z) : string :=
  or_default (kw_caption (kwargs r) ("caption_" ++ Py.str_int i)) (caption r).

Definition no_images_msg : string :=
  "No images provided. Either set images_path to a folder containing images, or connect at least one image input.".

(** ** The trainer *)

Definition lift {A} (r : result A) : M A := fun w => (r, w).

Definition try_fs (f : FS -> option FS) (e : error) : M unit :=
  fun w => match f (w_fs w) with
           | Some fs' => (Ok tt, set_fs (fun _ => fs') w)
           | None => (Raise e, w)
           end.

(** [f"{p}"] for a path that may be [None]. *)
Definition show_path (p : option string) : string := default "None" p.

(** [not p or not os.path.exists(p)] *)
Definition unusable (fs : FS) (p : option string) : bool :=
  match p with
  | Some s => (negb (Py.truthy s) || negb (Os.exists_ fs s))%bool
  | None => true
  end.

Definition with_blocks_to_swap (r : request) (b : Z) : request :=
  Request (model_variant r) (inputcount r) (images_path r) (musubi_path r)
          (dit_model r) (vae_model r) (text_encoder r) (caption r)
          (training_steps r) (learning_rate r) (lora_rank r) b
          (vram_mode r) (keep_lora r) (output_name r)
          (custom_python_exe r) (image_1 r) (kwargs r).

(** Lines 343-345. *)
Definition cap_blocks (blocks_to_swap max_blocks : Z) : Z :=
  if blocks_to_swap >? max_blocks then max_blocks else blocks_to_swap.

(** Lines 677-681. *)
Definition effective_blocks (blocks_to_swap : Z) (p : preset)
    (max_blocks : Z) : Z :=
  let e := if blocks_to_swap >? 0 then blocks_to_swap
           else default 0 (p_blocks_to_swap p) in
  if e >? max_blocks then max_blocks else e.

(** What the request resolves to before the cache is consulted. *)
Record prepared := Prepared
  { q_model_version : string;
    q_max_blocks : Z;
    q_blocks_to_swap : Z;
    q_musubi_path : string;
    q_dit_path : string;
    q_vae_path : string;
    q_text_encoder_path : string;
    q_images : samples;
    q_captions : list string;
    q_preset : preset;
    q_accelerate_path : string;
    q_train_script : string;
    q_image_hash : string }.

(** Lines 636-683: the argument list of the training stage. *)
Definition train_cmd (r : request) (q : prepared)
    (config_path output_folder run_name : string) : list string :=
  let p := q_preset q in
  ([ q_accelerate_path q;
     "launch";
     "--num_cpu_threads_per_process=1";
     "--mixed_precision=" +:+ p_mixed_precision p;
     q_train_script q;
     "--dit=" +:+ q_dit_path q;
     "--vae=" +:+ q_vae_path q;
     "--text_encoder=" +:+ q_text_encoder_path q;
     "--dataset_config=" +:+ config_path;
     "--model_version=" +:+ q_model_version q;
     "--sdpa";
     "--mixed_precision=" +:+ p_mixed_precision p;
     "--timestep_sampling=flux2_shift";
     "--weighting_scheme=none";
     "--optimizer_type=" +:+ p_optimizer p;
     "--learning_rate=" +:+ Py.str_float (learning_rate r);
     "--network_module=networks.lora_flux_2";
     "--network_dim=" +:+ Py.str_int (lora_rank r);
     "--network_alpha=" +:+ Py.str_int (lora_rank r);
     "--max_train_steps=" +:+ Py.str_int (training_steps r);
     "--max_data_loader_n_workers=2";
     "--persistent_data_loader_workers";
     "--output_dir=" +:+ output_folder;
     "--output_name=" +:+ run_name;
     "--seed=42" ]
   ++ (if p_gradient_checkpointing p then ["--gradient_checkpointing"] else [])
   ++ (if p_fp8_scaled p then ["--fp8_base"; "--fp8_scaled"] else [])
   ++ (if default false (p_fp8_text_encoder p)
       then ["--fp8_text_encoder"] else [])
   ++ (let effective :=
         effective_blocks (q_blocks_to_swap q) p (q_max_blocks q) in
       if effective >? 0
       then ["--blocks_to_swap=" +:+ Py.str_int effective] else []))%list.

(** The flag of line 683. *)
Definition swap_flag (n : Z) : string := "--blocks_to_swap=" +:+ Py.str_int n.

(** The effective swap budget in the specification's words: the request's
    value when positive, else the preset's default, then clamped to the
    variant's ceiling. *)
Definition spec_effective_blocks (requested preset_default ceiling : Z) : Z :=
  Z.min (if requested >? 0 then requested else preset_default) ceiling.

(** Lines 561-567. *)
Definition cache_latents_cmd (q : prepared)
    (python_path script config_path : string) : list string :=
  [ python_path; script;
    "--dataset_config=" +:+ config_path;
    "--vae=" +:+ q_vae_path q;
    "--model_version=" +:+ q_model_version q ].

(** Lines 598-609. *)
Definition cache_te_cmd (q : prepared)
    (python_path script config_path : string) : list string :=
  ([ python_path; script;
     "--dataset_config=" +:+ config_path;
     "--text_encoder=" +:+ q_text_encoder_path q;
     "--model_version=" +:+ q_model_version q;
     "--batch_size=1" ]
   ++ (if default false (p_fp8_text_encoder (q_preset q))
       then ["--fp8_text_encoder"] else []))%list.

(** Lines 497-506: the images of the folder, copied under index names
    with their label files; [idx] counts from 0. *)
Fixpoint stage_folder (t : Py.float) (image_folder : string) (idx : nat)
    (pairs : list (string * string)) (fs : FS) : option FS :=
  match pairs with
  | [] => Some fs
  | (src_path, cap) :: rest =>
      let ext := (OsPath.splitext src_path).2 in
      let stem := "image_" ++ Py.fmt_03d (idx + 1) in
      match Fs.copy2 src_path image_folder (stem ++ ext) fs with
      | None => None
      | Some fs1 =>
          stage_folder t image_folder (S idx) rest
            (Fs.write_file image_folder (stem ++ ".txt") cap t fs1)
      end
  end.

(** Line 719: [f.startswith(run_name) and f.endswith('.safetensors')]. *)
Definition artifact_match (run_name f : string) : bool :=
  (Py.startswith f run_name && Py.endswith f ".safetensors")%bool.

(** Lines 717-723. *)
Definition resolve_artifact (fs : FS)
    (output_folder run_name lora_output_path : string) : result string :=
  if Os.exists_ fs lora_output_path then Ok lora_output_path
  else
    match Os.listdir fs output_folder with
    | None => Raise (OSError output_folder)
    | Some names =>
        let possible_files := List.filter (artifact_match run_name) names in
        match last possible_files with
        | Some f => Ok (OsPath.join output_folder f)
        | None =>
            Raise (FileNotFoundError ("No LoRA file found in " ++ output_folder))
        end
    end.

Section Trainer.

Variable H : host.

(** [_get_model_path(name, folder_type)]; [None] is Python's [None]. *)
Definition _get_model_path (fs : FS) (name folder_type : string)
    : option string :=
  if negb (Py.truthy name) then Some ""
  else if (OsPath.isabs name && Os.exists_ fs name)%bool then Some name
  else match get_full_path H folder_type name with
       | Some found => found
       | None => Some name
       end.

(** [_get_accelerate_path] and [_get_venv_python_path]: the first of
    [.venv] and [venv] that has the program, [venv] when none has. *)
Definition venv_path (fs : FS) (musubi_path prog : string) : string :=
  let candidate venv_folder :=
    OsPath.join4 musubi_path venv_folder "bin" prog in
  if Os.exists_ fs (candidate ".venv") then candidate ".venv"
  else if Os.exists_ fs (candidate "venv") then candidate "venv"
  else candidate "venv".

Definition _get_accelerate_path (fs : FS) (musubi_path : string) : string :=
  venv_path fs musubi_path "accelerate".
Definition _get_venv_python_path (fs : FS) (musubi_path : string) : string :=
  venv_path fs musubi_path "python".

(** Line 338. *)
Definition variant_config (model_variant : string) : result variant :=
  match FLUX_KLEIN_VARIANTS H !! "Klein Base 4B" with
  | None => Raise (KeyError "Klein Base 4B")
  | Some fallback =>
      Ok (default fallback (FLUX_KLEIN_VARIANTS H !! model_variant))
  end.

(** Line 418. *)
Definition vram_preset (vram_mode : string) : result preset :=
  match MUSUBI_FLUX_KLEIN_VRAM_PRESETS H !! "Low (768px)" with
  | None => Raise (KeyError "Low (768px)")
  | Some fallback =>
      Ok (default fallback (MUSUBI_FLUX_KLEIN_VRAM_PRESETS H !! vram_mode))
  end.

(** Lines 363-388: the images and captions of the folder, when
    [images_path] names a directory that has images. *)
Definition folder_samples (fs : FS) (r : request)
    : result (option (list string * list string)) :=
  if (Py.truthy (images_path r) && Py.truthy (Py.strip (images_path r)))%bool
  then
    let images_path := expanduser H (Py.strip (images_path r)) in
    if Os.isdir fs images_path then
      match Os.listdir fs images_path with
      | Some names =>
          match scan_folder fs images_path (caption r) (sorted names) with
          | Raise e => Raise e
          | Ok ([], _) => Ok None
          | Ok found => Ok (Some found)
          end
      | None => Raise (OSError images_path)
      end
    else Ok None
  else Ok None.

(** Lines 358-408: the samples of the request and their captions. *)
Definition resolve_samples (fs : FS) (r : request)
    : result (samples * list string) :=
  match folder_samples fs r with
  | Raise e => Raise e
  | Ok (Some (folder_images, folder_captions)) =>
      Ok (FolderImages folder_images, folder_captions)
  | Ok None =>
      let inputs := collect_inputs r in
      match inputs with
      | [] => Raise (ValueError no_images_msg)
      | _ => Ok (TensorImages inputs.*1, inputs.*2)
      end
  end.

Definition check_exists (p what : string) : M unit :=
  w ← get;
  if Os.exists_ (w_fs w) p then ret tt
  else raise (FileNotFoundError (what +:+ p)).

Definition check_usable (p : option string) (what : string) : M string :=
  w ← get;
  if unusable (w_fs w) p
  then raise (FileNotFoundError (what +:+ show_path p))
  else ret (default "" p).

Definition hash_args_of (r : request) (blocks_to_swap : Z)
    (images : samples) (captions : list string) : hash_args :=
  HashArgs images captions (training_steps r) (learning_rate r)
           (lora_rank r) (vram_mode r) (output_name r) (model_variant r)
           (dit_model r) (vae_model r) (text_encoder r) blocks_to_swap.

(** [_save_musubi_config()] after lines 438-453. *)
Definition save_settings (musubi_path : string) (r : request) : M unit :=
  modify (fun w =>
    World (w_fs w) (w_cache w) (w_cache_file w)
          (Some (Settings musubi_path r))
          (w_spawned w) (w_now w) (w_clock w)).

(** [_save_musubi_cache()] *)
Definition _save_musubi_cache : M unit :=
  modify (fun w =>
    World (w_fs w) (w_cache w) (w_cache w) (w_config w)
          (w_spawned w) (w_now w) (w_clock w)).

(** Lines 337-460. *)
Definition prepare (r : request) : M prepared :=
  vc ← lift (variant_config (model_variant r));
  let model_version := model_version vc in
  let max_blocks := max_blocks_to_swap vc in
  let blocks_to_swap := cap_blocks (blocks_to_swap r) max_blocks in
  let musubi_path := expanduser H (Py.strip (musubi_path r)) in
  w ← get;
  let fs := w_fs w in
  let dit_path := _get_model_path fs (dit_model r) "diffusion_models" in
  let vae_path := _get_model_path fs (vae_model r) "vae" in
  let text_encoder_path :=
    let first := _get_model_path fs (text_encoder r) "text_encoders" in
    if unusable fs first
    then _get_model_path fs (text_encoder r) "clip" else first in
  sc ← lift (resolve_samples fs r);
  ps ← lift (vram_preset (vram_mode r));
  let accelerate_path := _get_accelerate_path fs musubi_path in
  let train_script :=
    OsPath.join4 musubi_path "src" "musubi_tuner" "flux_2_train_network.py" in
  check_exists accelerate_path "Musubi Tuner accelerate not found at: ";;
  check_exists train_script "flux_2_train_network.py not found at: ";;
  dit ← check_usable dit_path "DiT model not found at: ";
  vae ← check_usable vae_path "VAE model not found at: ";
  te ← check_usable text_encoder_path "Text encoder not found at: ";
  save_settings musubi_path (with_blocks_to_swap r blocks_to_swap);;
  let image_hash :=
    _compute_image_hash fs (hash_args_of r blocks_to_swap sc.1 sc.2) in
  ret (Prepared model_version max_blocks blocks_to_swap musubi_path
                dit vae te sc.1 sc.2 ps accelerate_path train_script
                image_hash).

(** Lines 473-475. *)
Definition run_name_of (r : request) (image_hash timestamp : string)
    : string :=
  let variant_suffix :=
    if String.eqb (model_variant r) "Klein Base 4B" then "4b" else "9b" in
  if Py.truthy (output_name r)
  then output_name r +:+ "_" +:+ variant_suffix +:+ "_" +:+ timestamp
  else "flux_klein_" +:+ variant_suffix +:+ "_lora_" +:+ image_hash.

(** [os.path.join(output_folder, f"{run_name}.safetensors")] *)
Definition lora_path (output_folder run_name : string) : string :=
  OsPath.join output_folder (run_name +:+ ".safetensors").

Definition numbered (run_name : string) (counter : Z) : string :=
  run_name +:+ "_" +:+ Py.str_int counter.

(** Lines 483-488: the run name, numbered when its file exists. *)
Definition choose_run_name (fs : FS) (output_folder run_name : string)
    : string :=
  if Os.exists_ fs (lora_path output_folder run_name) then
    let counter :=
      Fs.next_free fs
        (fun c => lora_path output_folder (numbered run_name c)) 1 in
    numbered run_name counter
  else run_name.

(** Lines 509-519: the tensors, saved as PNG with their label files. *)
Fixpoint stage_tensors (t : Py.float) (image_folder : string) (idx : nat)
    (pairs : list (image * string)) (fs : FS) : FS :=
  match pairs with
  | [] => fs
  | (img_tensor, cap) :: rest =>
      let stem := "image_" +:+ Py.fmt_03d (idx + 1) in
      stage_tensors t image_folder (S idx) rest
        (Fs.write_file image_folder (stem +:+ ".txt") cap t
           (Fs.write_file image_folder (stem +:+ ".png")
              (png_encode H img_tensor) t fs))
  end.

(** Lines 497-519. *)
Definition stage_samples (image_folder : string) (q : prepared) : M unit :=
  w ← get;
  match q_images q with
  | FolderImages folder_images =>
      try_fs (stage_folder (w_clock w) image_folder 0
                (zip folder_images (q_captions q)))
             (OSError image_folder)
  | TensorImages all_images =>
      modify (set_fs (stage_tensors (w_clock w) image_folder 0
                        (zip all_images (q_captions q))))
  end.

(** [subprocess.Popen(cmd, cwd=cwd, ...)], its output read to the end,
    and [wait()]: the return code. *)
Definition spawn (cmd : list string) (cwd : string) : M Z :=
  fun w =>
    let w' := World (w_fs w) (w_cache w) (w_cache_file w) (w_config w)
                    (w_spawned w ++ [(cmd, cwd)])%list (w_now w)
                    (w_clock w) in
    match run_process H cmd cwd (w_fs w) with
    | Some (returncode, fs') => (Ok returncode, set_fs (fun _ => fs') w')
    | None => (Raise (OSError (hd "" cmd)), w')
    end.

(** A stage: the child, and [RuntimeError] when its code is not 0. *)
Definition run_stage (cmd : list string) (cwd failed : string) : M unit :=
  returncode ← spawn cmd cwd;
  if (returncode =? 0)%Z then ret tt
  else raise (RuntimeError (failed +:+ Py.str_int returncode)).

Definition latents_failed : string := "Latent caching failed with code ".
Definition te_failed : string := "Text encoder caching failed with code ".
Definition training_failed : string :=
  "Musubi Tuner training failed with code ".

(** Lines 545-550. *)
Definition python_path_of (r : request) (q : prepared) : M string :=
  if (Py.truthy (custom_python_exe r)
      && Py.truthy (Py.strip (custom_python_exe r)))%bool
  then
    let python_path := Py.strip (custom_python_exe r) in
    check_exists python_path "Custom python.exe not found at: ";;
    ret python_path
  else
    w ← get;
    ret (_get_venv_python_path (w_fs w) (q_musubi_path q)).

(** Where a build works: the run name and the paths derived from it, and
    the temporary directory. *)
Record workspace := Workspace
  { ws_run_name : string;
    ws_output_folder : string;
    ws_lora_output_path : string;
    ws_temp_dir : string }.

(** What the stages share: the interpreter and the dataset descriptor. *)
Record staged := Staged
  { st_python_path : string;
    st_config_path : string }.

Definition musubi_script (q : prepared) (name : string) : string :=
  OsPath.join4 (q_musubi_path q) "src" "musubi_tuner" name.

(** Lines 496-590: the samples and the descriptor are written, and the
    latents are cached. *)
Definition stage_and_cache_latents (r : request) (q : prepared)
    (temp_dir : string) : M staged :=
  let image_folder := temp_dir in
  stage_samples image_folder q;;
  let config_content :=
    generate_dataset_config H image_folder (p_resolution (q_preset q))
                            (p_batch_size (q_preset q)) true in
  let config_path := OsPath.join temp_dir "dataset_config.toml" in
  w ← get;
  modify (set_fs (Fs.write_file temp_dir "dataset_config.toml"
                                config_content (w_clock w)));;
  python_path ← python_path_of r q;
  let cache_latents_script := musubi_script q "flux_2_cache_latents.py" in
  check_exists cache_latents_script "flux_2_cache_latents.py not found at: ";;
  run_stage (cache_latents_cmd q python_path cache_latents_script config_path)
            (q_musubi_path q) latents_failed;;
  ret (Staged python_path config_path).

Definition te_cmd_of (q : prepared) (st : staged) : list string :=
  cache_te_cmd q (st_python_path st)
    (musubi_script q "flux_2_cache_text_encoder_outputs.py")
    (st_config_path st).

(** Lines 592-632: the text encoder outputs are cached. *)
Definition cache_text_encoder (q : prepared) (st : staged) : M unit :=
  let cache_te_script :=
    musubi_script q "flux_2_cache_text_encoder_outputs.py" in
  check_exists cache_te_script
    "flux_2_cache_text_encoder_outputs.py not found at: ";;
  run_stage (te_cmd_of q st) (q_musubi_path q) te_failed.

(** Lines 634-735: the training stage, the artifact and the cache. *)
Definition train_and_record (r : request) (q : prepared) (st : staged)
    (ws : workspace) : M string :=
  run_stage (train_cmd r q (st_config_path st) (ws_output_folder ws)
                       (ws_run_name ws))
            (q_musubi_path q) training_failed;;
  w ← get;
  lora_output_path ←
    lift (resolve_artifact (w_fs w) (ws_output_folder ws) (ws_run_name ws)
                           (ws_lora_output_path ws));
  when_ (keep_lora r)
    (modify (set_cache <[q_image_hash q := lora_output_path]>);;
     _save_musubi_cache);;
  ret lora_output_path.

(** Lines 496-735: the body of the [try]. *)
Definition pipeline (r : request) (q : prepared) (ws : workspace)
    : M string :=
  st ← stage_and_cache_latents r q (ws_temp_dir ws);
  cache_text_encoder q st;;
  train_and_record r q st ws.

Definition temp_prefix : string := "comfy_musubi_flux_klein_".

(** Lines 472-493: the run name, the output folder and the temporary
    directory. *)
Definition open_workspace (r : request) (q : prepared) : M workspace :=
  w ← get;
  let run_name := run_name_of r (q_image_hash q) (w_now w) in
  let output_folder := OsPath.join (q_musubi_path q) "output" in
  try_fs (Fs.makedirs output_folder (w_clock w)) (OSError output_folder);;
  w ← get;
  let run_name := choose_run_name (w_fs w) output_folder run_name in
  let lora_output_path := lora_path output_folder run_name in
  let made := Fs.mkdtemp (gettempdir H) temp_prefix (w_clock w) (w_fs w) in
  modify (set_fs (fun _ => made.2));;
  ret (Workspace run_name output_folder lora_output_path made.1).

(** Lines 739-742: the workspace is removed; when [rmtree] raises, the
    exception is printed and dropped, and the path stays. *)
Definition remove_workspace (temp_dir : string) : M unit :=
  swallow (try_fs (Fs.rmtree temp_dir) (OSError temp_dir)).

(** The state that removing the workspace leaves. *)
Definition removed (temp_dir : string) (w : world) : world :=
  match Fs.rmtree temp_dir (w_fs w) with
  | Some fs' => set_fs (fun _ => fs') w
  | None => w
  end.

(** Lines 472-742: a build, with its workspace removed at the end. *)
Definition build (r : request) (q : prepared) : M string :=
  ws ← open_workspace r q;
  finally (pipeline r q ws) (remove_workspace (ws_temp_dir ws)).

(** Line 463 and 464: [keep_lora and image_hash in cache], and the entry. *)
Definition cache_lookup (keep_lora : bool) (cache : gmap string string)
    (image_hash : string) : option string :=
  if keep_lora then cache !! image_hash else None.

(** Lines 463-470: the cached path on a hit; a dangling entry is dropped
    and the store rewritten. *)
Definition check_cache (keep_lora : bool) (image_hash : string)
    : M (option string) :=
  w ← get;
  match cache_lookup keep_lora (w_cache w) image_hash with
  | Some cached_path =>
      if Os.exists_ (w_fs w) cached_path then ret (Some cached_path)
      else
        modify (set_cache (delete image_hash));;
        _save_musubi_cache;;
        ret None
  | None => ret None
  end.

Definition train_flux_klein_lora (r : request) : M string :=
  q ← prepare r;
  hit ← check_cache (keep_lora r) (q_image_hash q);
  match hit with
  | Some cached_path => ret cached_path
  | None => build r q
  end.

End Trainer.


(** The request with other run options: whether to keep and cache the
    artifact, the interpreter and the installation directory. *)
Definition with_run_options (r : request) (keep : bool)
    (python_exe musubi : string) : request :=
  Request (model_variant r) (inputcount r) (images_path r) musubi
          (dit_model r) (vae_model r) (text_encoder r) (caption r)
          (training_steps r) (learning_rate r) (lora_rank r)
          (blocks_to_swap r) (vram_mode r) keep (output_name r)
          python_exe (image_1 r) (kwargs r).

(** The digits of [hexdigest()]. *)
Definition hex_digits : list ascii := list_ascii_of_string "0123456789abcdef".

(** No child of the host turns the directory [d] into something else. *)
Definition tools_keep_dir (H : host) (d : string) : Prop :=
  forall cmd cwd fs code fs',
    run_process H cmd cwd fs = Some (code, fs') ->
    Os.isdir fs d = true -> Os.isdir fs' d = true.

(** ** Words for the staging of a folder *)

(** [p] is a regular file. *)
Definition is_file (fs : FS) (p : string) : Prop := is_Some (Os.read fs p).

(** The caption file looked for next to an image (lines 374-375). *)
Definition caption_file (images_path filename : string) : string :=
  OsPath.join images_path ((OsPath.splitext filename).1 +:+ ".txt").

(** The caption an image of the folder gets: the text of its caption
    file, with the line ends of text mode and stripped, or the default
    caption. *)
Definition caption_of (fs : FS) (images_path caption filename : string)
    : string :=
  match Os.read fs (caption_file images_path filename) with
  | Some b => Py.strip (Py.universal_newlines b)
  | None => caption
  end.

(** [p] is a regular file that decodes as UTF-8. *)
Definition is_text_file (fs : FS) (p : string) : Prop :=
  exists b, Os.read fs p = Some b /\ Py.valid_utf8 b = true.

(** [f"image_{idx+1:03d}"], for [idx] counted from 0. *)
Definition staged_stem (idx : nat) : string :=
  "image_" +:+ Py.fmt_03d (idx + 1).

(** What [os.path.splitext] returns as an extension: nothing, or a dot
    and more. *)
Definition is_ext (e : string) : Prop :=
  e = "" \/ exists e', e = String "." e'.

(** ** Relations between two calls of [_compute_image_hash] *)

(** The two calls have the same captions and parameters. *)
Definition same_parameters (a1 a2 : hash_args) : Prop :=
  h_captions a1 = h_captions a2
  /\ h_training_steps a1 = h_training_steps a2
  /\ h_learning_rate a1 = h_learning_rate a2
  /\ h_lora_rank a1 = h_lora_rank a2
  /\ h_vram_mode a1 = h_vram_mode a2
  /\ h_output_name a1 = h_output_name a2
  /\ h_model_variant a1 = h_model_variant a2
  /\ h_dit_model a1 = h_dit_model a2
  /\ h_vae_model a1 = h_vae_model a2
  /\ h_text_encoder a1 = h_text_encoder a2
  /\ h_blocks_to_swap a1 = h_blocks_to_swap a2.

(** The two calls see the same samples: tensors with the same bytes in
    the same order, or the same paths, each existing in both file systems
    with one modification time or in neither. *)
Inductive same_samples (fs1 fs2 : FS) : samples -> samples -> Prop :=
  | same_tensors (imgs1 imgs2 : list image) :
      map tobytes imgs1 = map tobytes imgs2 ->
      same_samples fs1 fs2 (TensorImages imgs1) (TensorImages imgs2)
  | same_paths (paths : list string) :
      (forall p, In p paths -> mtime <$> fs1 !! p = mtime <$> fs2 !! p) ->
      same_samples fs1 fs2 (FolderImages paths) (FolderImages paths).

(** The bytes the hasher is fed for a list of tensors. *)
Definition all_bytes (imgs : list image) : list byte :=
  concat (map tobytes imgs).

(** The call with other samples. *)
Definition with_images (a : hash_args) (images : samples) : hash_args :=
  HashArgs images (h_captions a) (h_training_steps a) (h_learning_rate a)
           (h_lora_rank a) (h_vram_mode a) (h_output_name a)
           (h_model_variant a) (h_dit_model a) (h_vae_model a)
           (h_text_encoder a) (h_blocks_to_swap a).

(** The second call differs from the first in one field: one caption, a
    number, a label, a model name, or the order of two tensors, when the
    bytes from the first of the two to the second are not the same in
    both orders. *)
Inductive one_change : hash_args -> hash_args -> Prop :=
  | change_caption imgs pre c c' post ts lr rk vm on mv dm vm' te b :
      c <> c' ->
      one_change
        (HashArgs imgs (pre ++ c :: post)%list ts lr rk vm on mv dm vm' te b)
        (HashArgs imgs (pre ++ c' :: post)%list ts lr rk vm on mv dm vm' te b)
  | change_training_steps imgs caps ts ts' lr rk vm on mv dm vm' te b :
      ts <> ts' ->
      one_change (HashArgs imgs caps ts lr rk vm on mv dm vm' te b)
                 (HashArgs imgs caps ts' lr rk vm on mv dm vm' te b)
  | change_learning_rate imgs caps ts lr lr' rk vm on mv dm vm' te b :
      lr <> lr' ->
      one_change (HashArgs imgs caps ts lr rk vm on mv dm vm' te b)
                 (HashArgs imgs caps ts lr' rk vm on mv dm vm' te b)
  | change_lora_rank imgs caps ts lr rk rk' vm on mv dm vm' te b :
      rk <> rk' ->
      one_change (HashArgs imgs caps ts lr rk vm on mv dm vm' te b)
                 (HashArgs imgs caps ts lr rk' vm on mv dm vm' te b)
  | change_vram_mode imgs caps ts lr rk vm vm2 on mv dm vm' te b :
      vm <> vm2 ->
      one_change (HashArgs imgs caps ts lr rk vm on mv dm vm' te b)
                 (HashArgs imgs caps ts lr rk vm2 on mv dm vm' te b)
  | change_output_name imgs caps ts lr rk vm on on' mv dm vm' te b :
      on <> on' ->
      one_change (HashArgs imgs caps ts lr rk vm on mv dm vm' te b)
                 (HashArgs imgs caps ts lr rk vm on' mv dm vm' te b)
  | change_model_variant imgs caps ts lr rk vm on mv mv' dm vm' te b :
      mv <> mv' ->
      one_change (HashArgs imgs caps ts lr rk vm on mv dm vm' te b)
                 (HashArgs imgs caps ts lr rk vm on mv' dm vm' te b)
  | change_dit_model imgs caps ts lr rk vm on mv dm dm' vm' te b :
      dm <> dm' ->
      one_change (HashArgs imgs caps ts lr rk vm on mv dm vm' te b)
                 (HashArgs imgs caps ts lr rk vm on mv dm' vm' te b)
  | change_vae_model imgs caps ts lr rk vm on mv dm va va' te b :
      va <> va' ->
      one_change (HashArgs imgs caps ts lr rk vm on mv dm va te b)
                 (HashArgs imgs caps ts lr rk vm on mv dm va' te b)
  | change_text_encoder imgs caps ts lr rk vm on mv dm va te te' b :
      te <> te' ->
      one_change (HashArgs imgs caps ts lr rk vm on mv dm va te b)
                 (HashArgs imgs caps ts lr rk vm on mv dm va te' b)
  | change_blocks_to_swap imgs caps ts lr rk vm on mv dm va te b b' :
      b <> b' ->
      one_change (HashArgs imgs caps ts lr rk vm on mv dm va te b)
                 (HashArgs imgs caps ts lr rk vm on mv dm va te b')
  | change_order pre x mid y post caps ts lr rk vm on mv dm va te b :
      all_bytes (x :: mid ++ [y]) <> all_bytes (y :: mid ++ [x]) ->
      one_change
        (HashArgs (TensorImages (pre ++ x :: mid ++ y :: post)%list)
                  caps ts lr rk vm on mv dm va te b)
        (HashArgs (TensorImages (pre ++ y :: mid ++ x :: post)%list)
                  caps ts lr rk vm on mv dm va te b).

(** ** A concrete installation, for the examples *)

Module Scenario.

Definition file (t content : string) : node := Node (Py.Float t) (File content).
Definition dir (t : string) (entries : list string) : node :=
  Node (Py.Float t) (Dir entries).

(** The value of the first argument [key=value] of a command. *)
Definition arg_value (key : string) (cmd : list string) : option string :=
  match List.filter (fun a => Py.startswith a key) cmd with
  | a :: _ =>
      Some (String.substring (String.length key)
              (String.length a - String.length key) a)
  | [] => None
  end.

(** A tool whose stages succeed; the training stage writes its output. *)
Definition tool (cmd : list string) (cwd : string) (fs : FS)
    : option (Z * FS) :=
  match arg_value "--output_dir=" cmd, arg_value "--output_name=" cmd with
  | Some d, Some n =>
      Some (0, Fs.write_file d (n +:+ ".safetensors") "weights"
                 (Py.Float "1700000100.0") fs)
  | _, _ => Some (0, fs)
  end.

(** A tool whose text-encoder stage leaves a file and exits with 3. *)
Definition failing_tool (cmd : list string) (cwd : string) (fs : FS)
    : option (Z * FS) :=
  if Py.endswith (nth 1 cmd "") "flux_2_cache_text_encoder_outputs.py"
  then
    match arg_value "--dataset_config=" cmd with
    | Some c =>
        Some (3, <[c +:+ ".partial" := file "1700000100.0" ""]> fs)
    | None => Some (3, fs)
    end
  else tool cmd cwd fs.

(** A tool whose text-encoder stage puts a regular file where the
    directory of the dataset descriptor was, and exits with 3. *)
Definition clobbering_tool (cmd : list string) (cwd : string) (fs : FS)
    : option (Z * FS) :=
  if Py.endswith (nth 1 cmd "") "flux_2_cache_text_encoder_outputs.py"
  then
    match arg_value "--dataset_config=" cmd with
    | Some c =>
        let d :=
          String.substring 0 (String.length c
                              - String.length "/dataset_config.toml") c in
        Some (3, <[d := file "1700000100.0" ""]>
                   (filter (fun kv => Fs.under d kv.1 = false) fs))
    | None => Some (3, fs)
    end
  else tool cmd cwd fs.

(** A tool whose training stage exits with 2 and writes nothing. *)
Definition train_failing_tool (cmd : list string) (cwd : string) (fs : FS)
    : option (Z * FS) :=
  if existsb (fun a => Py.endswith a "flux_2_train_network.py") cmd
  then Some (2, fs)
  else tool cmd cwd fs.

Definition low : preset :=
  Preset "adamw8bit" "bf16" 1 true true (Some true) (Some 0) 768.
Definition min_preset : preset :=
  Preset "adamw8bit" "bf16" 1 true true (Some true) (Some 13) 512.

Definition variants : gmap string variant :=
  {[ "Klein Base 4B" := Variant "klein-base-4b" 13;
     "Klein Base 9B" := Variant "klein-base-9b" 16 ]}.
Definition presets : gmap string preset :=
  {[ "Low (768px)" := low; "Min (512px)" := min_preset ]}.

Definition host_with (run : list string -> string -> FS -> option (Z * FS))
    : host :=
  Host variants presets
       (fun image_folder resolution batch_size enable_bucket =>
          "image_directory = " +:+ image_folder)
       (fun folder_type name => Some (Some ("/models/" +:+ name)))
       (fun p => p) "/tmp" (fun _ => "PNG") run.

Definition H : host := host_with tool.
Definition H_failing : host := host_with failing_tool.
Definition H_clobbering : host := host_with clobbering_tool.
Definition H_train_failing : host := host_with train_failing_tool.

Definition fs0 : FS :=
  list_to_map
    [ ("/m/venv/bin/accelerate", file "1.0" "");
      ("/m/venv/bin/python", file "1.0" "");
      ("/m/src/musubi_tuner/flux_2_train_network.py", file "1.0" "");
      ("/m/src/musubi_tuner/flux_2_cache_latents.py", file "1.0" "");
      ("/m/src/musubi_tuner/flux_2_cache_text_encoder_outputs.py",
       file "1.0" "");
      ("/models/dit.safetensors", file "1.0" "");
      ("/models/ae.safetensors", file "1.0" "");
      ("/models/qwen.safetensors", file "1.0" "") ].

Definition w0 : world :=
  World fs0 ∅ ∅ None [] "20260101_000000" (Py.Float "1700000000.0").

(** A black pixel, and two black pixels side by side. *)
Definition px1 : image := Image (1, 1, 3)%nat [x00; x00; x00]%list.
Definition px2 : image :=
  Image (1, 2, 3)%nat [x00; x00; x00; x00; x00; x00]%list.

Definition req (keep : bool) (blocks : Z) : request :=
  Request "Klein Base 4B" 4 "" "/m" "dit.safetensors" "ae.safetensors"
          "qwen.safetensors" "photo of subject" 400 (Py.Float "0.0001") 32
          blocks "Low (768px)" keep "MyLora" "" (Some px1) ∅.

Definition r0 : request := req true 0.

(** The cache names an artifact of [r0] that is gone. *)
Definition w_stale : world :=
  World fs0 {[ "7d4c117eeb785aa7" := "/m/output/gone.safetensors" ]}
        {[ "7d4c117eeb785aa7" := "/m/output/gone.safetensors" ]}
        None [] "20260101_000000" (Py.Float "1700000000.0").

Definition args (images : samples) (steps : Z) : hash_args :=
  HashArgs images ["photo of subject"; "photo of subject"] steps
           (Py.Float "0.0001") 32 "Low (768px)" "MyLora" "Klein Base 4B"
           "dit.safetensors" "ae.safetensors" "qwen.safetensors" 0.

End Scenario.

(** ** [musubi_zimage_base_config_template.py] *)

Module ZImageBase.

(** An entry of [MUSUBI_ZIMAGE_BASE_VRAM_PRESETS]. *)
Record preset := Preset
  { optimizer : string;
    mixed_precision : string;
    batch_size : Z;
    gradient_checkpointing : bool;
    fp8_scaled : bool;
    fp8_llm : bool;
    blocks_to_swap : Z;
    resolution : Z }.

Definition MUSUBI_ZIMAGE_BASE_VRAM_PRESETS : gmap string preset :=
  list_to_map
    [ ("Max (1256px)",
       Preset "adamw8bit" "bf16" 1 false false false 0 1256);
      ("Max (1256px) fp8",
       Preset "adamw8bit" "bf16" 1 false true true 0 1256);
      ("Max (1256px) fp8 offload",
       Preset "adamw8bit" "bf16" 1 true true true 14 1256);
      ("Medium (1024px)",
       Preset "adamw8bit" "bf16" 1 true false false 0 1024);
      ("Medium (1024px) fp8",
       Preset "adamw8bit" "bf16" 1 true true true 0 1024);
      ("Medium (1024px) fp8 offload",
       Preset "adamw8bit" "bf16" 1 true true true 14 1024);
      ("Low (768px)",
       Preset "adamw8bit" "bf16" 1 true true true 14 768);
      ("Min (512px)",
       Preset "adamw8bit" "bf16" 1 true true true 28 512) ].

(** [needle in hay] *)
Definition contains (needle hay : string) : bool :=
  match String.index 0 needle hay with
  | Some _ => true
  | None => false
  end.

(** What every entry of the table satisfies. *)
Definition well_formed (label : string) (p : preset) : bool :=
  (Z.leb 0 (blocks_to_swap p) && Z.leb (blocks_to_swap p) 28
   && Bool.eqb (fp8_llm p) (fp8_scaled p)
   && Z.eqb (batch_size p) 1
   && implb (Z.ltb 0 (blocks_to_swap p))
            (gradient_checkpointing p && fp8_scaled p)
   && contains ("(" +:+ Py.str_int (resolution p) +:+ "px)") label)%bool.

End ZImageBase.

(** ** More of the concrete installation *)

Module Scenario2.

(** What [prepare] makes of [Scenario.r0] on [Scenario.w0]. *)
Definition q0 : prepared :=
  Prepared "klein-base-4b" 13 0 "/m" "/models/dit.safetensors"
           "/models/ae.safetensors" "/models/qwen.safetensors"
           (TensorImages [Scenario.px1]) ["photo of subject"] Scenario.low
           "/m/venv/bin/accelerate"
           "/m/src/musubi_tuner/flux_2_train_network.py" "7d4c117eeb785aa7".

(** A carriage return, a line feed, and U+00A0, a space that does not
    break, in UTF-8. *)
Definition cr : string := String "013"%char "".
Definition lf : string := String "010"%char "".
Definition nbsp : string := String "194"%char (String "160"%char "").

(** A folder of two images, one of them captioned, and a note; an empty
    workspace.  The caption file has a space of its own kind in front and
    line ends of the other kind. *)
Definition fs_folder : FS :=
  list_to_map
    [ ("/data", Scenario.dir "1.0" ["b.PNG"; "notes.md"; "a.jpg"; "a.txt"]);
      ("/data/a.jpg", Scenario.file "1.0" "jpeg bytes");
      ("/data/a.txt",
       Scenario.file "1.0"
         (nbsp +:+ " a cat" +:+ cr +:+ lf +:+ "on a mat " +:+ cr +:+ lf));
      ("/data/b.PNG", Scenario.file "2.0" "png bytes");
      ("/data/notes.md", Scenario.file "1.0" "");
      ("/tmp/ws", Scenario.dir "3.0" []) ].

(** The same folder with a caption file that is not UTF-8. *)
Definition fs_latin1 : FS :=
  <["/data/a.txt" := Scenario.file "1.0" ("caf" +:+ String "233"%char "")]>
    fs_folder.

Definition r_folder : request :=
  Request "Klein Base 4B" 4 " /data " "/m" "dit.safetensors" "ae.safetensors"
          "qwen.safetensors" "photo of subject" 400 (Py.Float "0.0001") 32
          0 "Low (768px)" true "MyLora" "" None ∅.

(** Inputs 1 to 3 connected, the second with its own caption, and a
    fifth beyond [inputcount]. *)
Definition r_inputs : request :=
  Request "Klein Base 4B" 4 "" "/m" "dit.safetensors" "ae.safetensors"
          "qwen.safetensors" "photo of subject" 400 (Py.Float "0.0001") 32
          0 "Low (768px)" true "MyLora" "" (Some Scenario.px1)
          (list_to_map
             [ ("image_2", KImage Scenario.px2);
               ("caption_2", KStr "two pixels");
               ("image_3", KImage Scenario.px1);
               ("caption_3", KStr "");
               ("image_5", KImage Scenario.px2) ]).

(** The installation after two runs of [Scenario.r0] within the same
    second have left their artifacts. *)
Definition w_taken : world :=
  World (<["/m/output/MyLora_4b_20260101_000000.safetensors" :=
             Scenario.file "1.0" "first"]>
           (<["/m/output/MyLora_4b_20260101_000000_1.safetensors" :=
                Scenario.file "1.0" "second"]> Scenario.fs0))
        ∅ ∅ None [] "20260101_000000" (Py.Float "1700000000.0").

End Scenario2.
(** * Properties *)

(** ** SHA-256 on the standard test vectors *)

Example sha256_abc :
  Sha256.hexdigest (list_byte_of_string "abc")
  = "ba7816bf8f01cfea414140de5dae2223b00361a396177a9cb410ff61f20015ad".
Proof. vm_compute. reflexivity. Qed.

Example sha256_empty :
  Sha256.hexdigest []
  = "e3b0c44298fc1c149afbf4c8996fb92427ae41e4649b934ca495991b7852b855".
Proof. vm_compute. reflexivity. Qed.

Example sha256_two_blocks :
  Sha256.hexdigest (list_byte_of_string
    "abcdbcdecdefdefgefghfghighijhijkijkljklmklmnlmnomnopnopq")
  = "248d6a61d20638b8e5c026930c3e6039a33ce45964ff2167f6ecedd419db06c1".
Proof. vm_compute. reflexivity. Qed.

(** ** Strings *)

Module Str.

Lemma app_cons (x : ascii) (a b : string) :
  String x a +:+ b = String x (a +:+ b).
Proof. reflexivity. Qed.

Lemma app_nil_l (a : string) : "" +:+ a = a.
Proof. reflexivity. Qed.

Lemma app_assoc (a b c : string) : (a +:+ b) +:+ c = a +:+ (b +:+ c).
Proof.
  induction a as [|x a IH]; [done|]. rewrite !app_cons; simpl.
  by rewrite IH.
Qed.

Lemma app_nil_r (a : string) : a +:+ "" = a.
Proof.
  induction a as [|x a IH]; [done|]. rewrite !app_cons; simpl.
  by rewrite IH.
Qed.

Lemma length_app (a b : string) :
  String.length (a +:+ b) = (String.length a + String.length b)%nat.
Proof.
  induction a as [|x a IH]; [done|]. rewrite !app_cons; simpl.
  by rewrite IH.
Qed.

Lemma to_list_app (a b : string) :
  list_ascii_of_string (a +:+ b)
  = (list_ascii_of_string a ++ list_ascii_of_string b)%list.
Proof.
  induction a as [|x a IH]; [done|]. rewrite !app_cons; simpl.
  by rewrite IH.
Qed.

Lemma to_list_inj (a b : string) :
  list_ascii_of_string a = list_ascii_of_string b -> a = b.
Proof.
  intros E. rewrite <- (string_of_list_ascii_of_string a),
    <- (string_of_list_ascii_of_string b). by rewrite E.
Qed.

(** Cancellation on the right; on the left it is stdpp's [String.app_inj]. *)
Lemma app_inv_tail (a b t : string) : a +:+ t = b +:+ t -> a = b.
Proof.
  intros E. apply to_list_inj.
  apply (f_equal list_ascii_of_string) in E.
  rewrite !to_list_app in E. by apply List.app_inv_tail in E.
Qed.

Lemma app_inv_head (p a b : string) : p +:+ a = p +:+ b -> a = b.
Proof. apply String.app_inj. Qed.

Lemma last_char_app (a b : string) :
  b <> "" -> Py.last_char (a +:+ b) = Py.last_char b.
Proof.
  intros Hb. induction a as [|x a IH]; [done|].
  rewrite app_cons. simpl. rewrite IH.
  destruct (a +:+ b) eqn:E; [|done].
  destruct a, b; simplify_eq/=.
Qed.

Lemma encode_app (a b : string) :
  Py.encode (a +:+ b) = (Py.encode a ++ Py.encode b)%list.
Proof.
  unfold Py.encode, list_byte_of_string.
  by rewrite to_list_app, map_app.
Qed.

Lemma encode_inj (a b : string) : Py.encode a = Py.encode b -> a = b.
Proof.
  intros E. rewrite <- (string_of_list_byte_of_string a),
    <- (string_of_list_byte_of_string b).
  unfold Py.encode in E. by rewrite E.
Qed.

End Str.

(** ** Paths *)

Lemma startswith_cons (c d : ascii) (s : string) :
  Py.startswith (String c s) (String d "") = bool_decide (c = d).
Proof.
  unfold Py.startswith. simpl.
  destruct (ascii_dec d c) as [->|Hne].
  - rewrite bool_decide_eq_true_2 by done. by destruct s.
  - by rewrite bool_decide_eq_false_2 by congruence.
Qed.

(** [os.path.join(a, x)] keeps [x] apart: two joins under one directory
    agree only on the same name, for names that both are absolute or both
    are not. *)
Lemma join_inj (a x y : string) :
  Py.startswith x "/" = Py.startswith y "/" ->
  OsPath.join a x = OsPath.join a y -> x = y.
Proof.
  unfold OsPath.join. intros <-.
  destruct (Py.startswith x "/"); [done|].
  destruct (negb (Py.truthy a) || Py.endswith a "/")%bool.
  - apply Str.app_inv_head.
  - intros E. apply Str.app_inv_head in E. by apply Str.app_inv_head in E.
Qed.

Lemma numbered_inj (output_folder run_name : string) (c1 c2 : Z) :
  lora_path output_folder (numbered run_name c1)
  = lora_path output_folder (numbered run_name c2) -> c1 = c2.
Proof.
  unfold lora_path, numbered. intros E.
  apply join_inj in E.
  - rewrite !Str.app_assoc in E.
    do 2 apply Str.app_inv_head in E. apply Str.app_inv_tail in E.
    by apply (inj pretty) in E.
  - destruct run_name as [|h t].
    + by rewrite !Str.app_nil_l, !Str.app_cons, !startswith_cons.
    + by rewrite !Str.app_cons, !startswith_cons.
Qed.

(** ** The search for a free name *)

Section FirstFree.

Variables (fs : FS) (mk : Z -> string).

Lemma first_free_Some (fuel : nat) (c k : Z) :
  Fs.first_free fuel fs mk c = Some k ->
  c <= k /\ Os.exists_ fs (mk k) = false
  /\ forall j, c <= j < k -> Os.exists_ fs (mk j) = true.
Proof.
  revert c. induction fuel as [|fuel IH]; intros c; simpl; [done|].
  destruct (Os.exists_ fs (mk c)) eqn:Hc.
  - intros [Hle [Hk Hlt]]%IH. split; [lia|]. split; [done|].
    intros j Hj. destruct (decide (j = c)) as [->|]; [done|].
    apply Hlt. lia.
  - intros [= <-]. split; [lia|]. split; [done|]. intros j Hj. lia.
Qed.

Lemma first_free_None (fuel : nat) (c : Z) :
  Fs.first_free fuel fs mk c = None ->
  forall j, c <= j < c + Z.of_nat fuel -> Os.exists_ fs (mk j) = true.
Proof.
  revert c. induction fuel as [|fuel IH]; intros c; simpl; [lia|].
  destruct (Os.exists_ fs (mk c)) eqn:Hc; [|done].
  intros Hn j Hj. destruct (decide (j = c)) as [->|]; [done|].
  apply (IH _ Hn). lia.
Qed.

Hypothesis mk_inj : forall i j, mk i = mk j -> i = j.

(** A file system has fewer paths than [size fs + 1] distinct names. *)
Lemma first_free_enough (c : Z) :
  Fs.first_free (S (size fs)) fs mk c <> None.
Proof.
  intros Hn.
  pose proof (first_free_None _ _ Hn) as Hall.
  set (l := mk <$> seqZ c (Z.of_nat (S (size fs)))).
  assert (NoDup l) as Hnd.
  { apply NoDup_fmap_2_strong; [|apply NoDup_seqZ].
    intros i j _ _. apply mk_inj. }
  assert (forall x, x ∈ l -> x ∈ (map_to_list fs).*1) as Hin.
  { intros x [j [-> Hj]]%list_elem_of_fmap.
    apply elem_of_seqZ in Hj. specialize (Hall j Hj).
    unfold Os.exists_ in Hall. apply bool_decide_eq_true in Hall.
    destruct Hall as [n Hn']. apply list_elem_of_fmap.
    exists (mk j, n). split; [done|]. by apply elem_of_map_to_list. }
  pose proof (submseteq_length _ _ (NoDup_submseteq _ _ Hnd Hin)) as Hlen.
  unfold l in Hlen.
  rewrite !length_fmap, length_seqZ, length_map_to_list in Hlen. lia.
Qed.

Lemma next_free_spec (c : Z) :
  let k := Fs.next_free fs mk c in
  c <= k /\ Os.exists_ fs (mk k) = false
  /\ forall j, c <= j < k -> Os.exists_ fs (mk j) = true.
Proof.
  unfold Fs.next_free.
  destruct (Fs.first_free (S (size fs)) fs mk c) as [k|] eqn:E.
  - simpl. by apply first_free_Some in E.
  - by destruct (first_free_enough c).
Qed.

End FirstFree.

(** ** The run name that is free *)

(** The name [choose_run_name] returns has a [.safetensors] path at which
    nothing exists: it is the name it was given when the path of that one
    is free, and otherwise that name suffixed with the smallest counter
    from 1 on whose path is free; the search always ends. *)
Lemma choose_run_name_fresh (fs : FS) (output_folder run_name : string) :
  let chosen := choose_run_name fs output_folder run_name in
  Os.exists_ fs (lora_path output_folder chosen) = false
  /\ (Os.exists_ fs (lora_path output_folder run_name) = false ->
      chosen = run_name)
  /\ (Os.exists_ fs (lora_path output_folder run_name) = true ->
      exists counter,
        chosen = numbered run_name counter /\ 1 <= counter
        /\ forall c, 1 <= c < counter ->
             Os.exists_ fs (lora_path output_folder (numbered run_name c))
             = true).
Proof.
  unfold choose_run_name.
  pose proof (next_free_spec fs
                (fun c => lora_path output_folder (numbered run_name c))
                (numbered_inj output_folder run_name) 1) as [Hle [Hfree Hmin]].
  destruct (Os.exists_ fs (lora_path output_folder run_name)) eqn:Hex; simpl.
  - split; [done|]. split; [done|]. intros _. eauto.
  - split; [done|]. split; [done|]. done.
Qed.

(** ** Decimal numerals *)

Module Dec.

Lemma char_isdigit (y : N) : Py.isdigit (pretty_N_char y) = true.
Proof. unfold pretty_N_char. by repeat case_match. Qed.

Lemma char_nonzero (y : N) : (0 < y)%N -> pretty_N_char y <> "0"%char.
Proof. unfold pretty_N_char. intros Hy. repeat case_match; first [discriminate | lia]. Qed.

Lemma all_digits_app (a b : string) :
  Py.all_digits (a +:+ b) = (Py.all_digits a && Py.all_digits b)%bool.
Proof.
  induction a as [|x a IH]; [done|]. rewrite Str.app_cons. simpl.
  rewrite IH. by rewrite andb_assoc.
Qed.

(** The digits [pretty_N_go] puts before its accumulator: all digits,
    and for a positive number not empty and not led by a zero. *)
Lemma go_digits (x : N) (s : string) :
  exists t, pretty_N_go x s = t +:+ s /\ Py.all_digits t = true
            /\ ((0 < x)%N -> exists c r, t = String c r /\ c <> "0"%char).
Proof.
  revert s. induction (N.lt_wf_0 x) as [x _ IH]; intros s.
  assert (x = 0 \/ 0 < x)%N as [->|Hx] by lia.
  - exists "". rewrite pretty_N_go_0. split; [done|]. split; [done|]. lia.
  - rewrite pretty_N_go_step by done.
    set (d := pretty_N_char (x `mod` 10)).
    destruct (IH (x `div` 10)%N (N.div_lt x 10 Hx eq_refl) (String d s))
      as (t & Ht & Hd & Hlead).
    exists (t +:+ String d ""). split.
    { by rewrite Ht, Str.app_assoc. }
    split.
    { rewrite all_digits_app, Hd. simpl.
      unfold d. by rewrite char_isdigit. }
    intros _. destruct (decide (x `div` 10 = 0)%N) as [Hz|Hp%N.neq_0_lt_0].
    + rewrite Hz, pretty_N_go_0 in Ht.
      assert (t = "") as -> by (by apply (Str.app_inv_tail _ "" (String d s))).
      exists d, "". split; [done|]. apply char_nonzero.
      apply N.div_small_iff in Hz; [|done].
      rewrite N.mod_small by done. done.
    + destruct (Hlead Hp) as (c & r & -> & Hc).
      exists c, (r +:+ String d ""). by rewrite Str.app_cons.
Qed.

Lemma str_nat_digits (n : nat) :
  Py.all_digits (Py.str_int (Z.of_nat n)) = true.
Proof.
  unfold Py.str_int, pretty, pretty_Z.
  destruct (Z.of_nat n) as [|p|p] eqn:E; [done| |lia].
  unfold pretty, pretty_positive, pretty, pretty_N.
  rewrite decide_False by done.
  destruct (go_digits (N.pos p) "") as (t & -> & Hd & _).
  by rewrite Str.app_nil_r.
Qed.

(** A numeral that starts with a zero is ["0"]. *)
Lemma str_nat_lead (n : nat) (r : string) :
  Py.str_int (Z.of_nat n) = String "0" r -> r = "".
Proof.
  unfold Py.str_int, pretty, pretty_Z.
  destruct (Z.of_nat n) as [|p|p] eqn:E; [intros ?; by simplify_eq| |lia].
  unfold pretty, pretty_positive, pretty, pretty_N.
  rewrite decide_False by done.
  destruct (go_digits (N.pos p) "") as (t & -> & _ & Hlead).
  destruct Hlead as (c & r' & -> & Hc); [lia|].
  rewrite Str.app_nil_r. intros ?; by simplify_eq.
Qed.

Lemma last_char_digits (s : string) :
  s <> "" -> Py.all_digits s = true ->
  exists c, Py.last_char s = Some c /\ Py.isdigit c = true.
Proof.
  induction s as [|x s IH]; [done|]. intros _ [Hx Hs]%andb_true_iff.
  destruct s as [|y s]; [by exists x|].
  destruct IH as (c & Hc & Hd); [done|done|]. by exists c.
Qed.

(** [str(n)] ends with a digit. *)
Lemma str_int_last (n : Z) :
  exists c, Py.last_char (Py.str_int n) = Some c /\ Py.isdigit c = true.
Proof.
  assert (forall p : positive,
    exists c, Py.last_char (pretty (N.pos p)) = Some c
              /\ Py.isdigit c = true) as Hpos.
  { intros p. unfold pretty, pretty_N. rewrite decide_False by done.
    destruct (go_digits (N.pos p) "") as (t & -> & Hd & Hlead).
    destruct Hlead as (c & r & -> & _); [lia|].
    rewrite Str.app_nil_r. by apply last_char_digits. }
  unfold Py.str_int, pretty, pretty_Z. destruct n as [|p|p].
  - by exists "0"%char.
  - apply Hpos.
  - destruct (Hpos p) as (c & Hc & Hd). exists c. split; [|done].
    rewrite Str.last_char_app; [done|].
    intros E. unfold pretty, pretty_positive in E. by rewrite E in Hc.
Qed.

End Dec.

(** ** Running the monad *)

Ltac unfold_M :=
  unfold check_exists, check_usable, save_settings, _save_musubi_cache,
    try_fs, when_ in *;
  unfold mbind, M_bind, mret, M_ret, bind, ret, raise, lift, get, modify,
    finally in *.

(** Splits the scrutinee of a [match] in hypothesis [H]. *)
Ltac split_match H :=
  match type of H with
  | context [match ?x with _ => _ end] => destruct x eqn:?; simplify_eq/=
  | context [if ?x then _ else _] => destruct x eqn:?; simplify_eq/=
  end.

(** Splits every [match] among the hypotheses. *)
Ltac split_all :=
  repeat match goal with
         | H : context [match ?x with _ => _ end] |- _ =>
             destruct x eqn:?; simplify_eq/=
         end.

(** ** What [prepare] establishes *)

Section Prepare.

Variable H : host.

(** [prepare] touches the saved settings only. *)
Lemma prepare_frame (r : request) (w w1 : world) (res : result prepared) :
  prepare H r w = (res, w1) ->
  w_fs w1 = w_fs w /\ w_cache w1 = w_cache w
  /\ w_cache_file w1 = w_cache_file w /\ w_spawned w1 = w_spawned w
  /\ w_now w1 = w_now w /\ w_clock w1 = w_clock w.
Proof.
  unfold prepare. unfold_M. intros E.
  split_all; done.
Qed.

Lemma prepare_Ok (r : request) (w w1 : world) (q : prepared) :
  prepare H r w = (Ok q, w1) ->
  exists vc sc ps,
    variant_config H (model_variant r) = Ok vc
    /\ resolve_samples H (w_fs w) r = Ok sc
    /\ vram_preset H (vram_mode r) = Ok ps
    /\ q_model_version q = model_version vc
    /\ q_max_blocks q = max_blocks_to_swap vc
    /\ q_blocks_to_swap q
       = cap_blocks (blocks_to_swap r) (max_blocks_to_swap vc)
    /\ q_musubi_path q = expanduser H (Py.strip (musubi_path r))
    /\ q_images q = sc.1 /\ q_captions q = sc.2 /\ q_preset q = ps
    /\ q_accelerate_path q
       = _get_accelerate_path (w_fs w) (q_musubi_path q)
    /\ q_train_script q
       = OsPath.join4 (q_musubi_path q) "src" "musubi_tuner"
                      "flux_2_train_network.py"
    /\ q_image_hash q
       = _compute_image_hash (w_fs w)
           (hash_args_of r (q_blocks_to_swap q) sc.1 sc.2).
Proof.
  unfold prepare. unfold_M. intros E.
  split_all. all: eexists _, _, _; repeat split; done.
Qed.

End Prepare.

(** ** C6: the swap budget on the training command *)

Lemma last_char_join (a b : string) :
  b <> "" -> Py.last_char (OsPath.join a b) = Py.last_char b.
Proof.
  intros Hb. unfold OsPath.join.
  destruct (Py.startswith b "/"); [done|].
  destruct (negb (Py.truthy a) || Py.endswith a "/")%bool.
  - by apply Str.last_char_app.
  - rewrite Str.last_char_app; [by apply (Str.last_char_app "/")|].
    by destruct b.
Qed.

Lemma swap_flag_last (n : Z) :
  exists c, Py.last_char (swap_flag n) = Some c /\ Py.isdigit c = true.
Proof.
  destruct (Dec.str_int_last n) as (c & Hc & Hd). exists c. split; [|done].
  unfold swap_flag. rewrite Str.last_char_app; [done|].
  intros E. by rewrite E in Hc.
Qed.

(** A path whose last component is a word is not the flag. *)
Lemma swap_flag_not_path (n : Z) (a b : string) (c : ascii) :
  Py.last_char b = Some c -> Py.isdigit c = false ->
  OsPath.join a b <> swap_flag n.
Proof.
  intros Hb Hc E. destruct (swap_flag_last n) as (d & Hd & Hdig).
  rewrite <- E, last_char_join in Hd by (by destruct b). congruence.
Qed.

Lemma effective_blocks_spec (requested : Z) (p : preset) (ceiling : Z) :
  let code := effective_blocks (cap_blocks requested ceiling) p ceiling in
  let spec :=
    spec_effective_blocks requested (default 0 (p_blocks_to_swap p)) ceiling in
  (0 < code <-> 0 < spec) /\ (0 < code -> code = spec).
Proof.
  unfold effective_blocks, cap_blocks, spec_effective_blocks. simpl.
  repeat case_match; lia.
Qed.

Lemma swap_flag_inj (n m : Z) : swap_flag n = swap_flag m -> n = m.
Proof.
  unfold swap_flag. intros E%Str.app_inv_head. by apply (inj pretty) in E.
Qed.

(** An argument that differs from the flag within its fixed prefix. *)
Ltac flag_ne E :=
  exfalso; unfold swap_flag in E; rewrite ?Str.app_cons in E; discriminate E.


(** ** C9: finding the trained artifact *)

Lemma last_cons_cons {A} (x y : A) (l : list A) :
  last (x :: y :: l) = last (y :: l).
Proof. done. Qed.

(** In a sorted listing the last match is the greatest. *)
Lemma last_filter_sorted (p : string -> bool) (names : list string)
    (f g : string) :
  StronglySorted String.le names ->
  last (List.filter p names) = Some f ->
  In g (List.filter p names) -> String.le g f.
Proof.
  induction names as [|x names IH]; [done|].
  intros [Hs Hx]%StronglySorted_inv. simpl.
  destruct (p x) eqn:Hp; [|by apply IH].
  destruct (List.filter p names) as [|y l] eqn:Hf.
  - intros [= <-] [<-|[]]. done.
  - rewrite last_cons_cons. intros Hl [<-|Hg]; [|by apply IH].
    assert (In f (List.filter p names)) as Hin.
    { rewrite Hf. apply list_elem_of_In, last_Some_elem_of, Hl. }
    apply filter_In in Hin as [Hin _].
    rewrite Forall_forall in Hx. apply Hx. by apply list_elem_of_In.
Qed.


(** ** The message behind a fingerprint *)

Lemma hash_tensors (imgs : list image) (h : hasher) :
  fold_left (fun h img_tensor => update h (tobytes img_tensor)) imgs h
  = (h ++ concat (map tobytes imgs))%list.
Proof.
  revert h. induction imgs as [|x imgs IH]; intros h; simpl.
  - by rewrite app_nil_r.
  - rewrite IH. unfold update. by rewrite <- app_assoc.
Qed.

Lemma hash_folder_ext (fs1 fs2 : FS) (paths : list string) :
  (forall p, In p paths -> mtime <$> fs1 !! p = mtime <$> fs2 !! p) ->
  hash_images fs1 (FolderImages paths) = hash_images fs2 (FolderImages paths).
Proof.
  unfold hash_images. generalize (@nil byte).
  induction paths as [|p paths IH]; intros h0 Hp; [done|]. simpl.
  assert (mtime <$> fs1 !! p = mtime <$> fs2 !! p) as E by (apply Hp; by left).
  destruct (fs1 !! p) as [n1|], (fs2 !! p) as [n2|]; simplify_eq/=;
    (rewrite ?E; apply IH; intros; apply Hp; by right).
Qed.

Lemma take16_hex_state (s : Sha256.state) :
  String.length (Py.take 16 (Sha256.hex_state s)) = 16%nat.
Proof. reflexivity. Qed.

Lemma fingerprint_length (fs : FS) (a : hash_args) :
  String.length (_compute_image_hash fs a) = 16%nat.
Proof. apply take16_hex_state. Qed.

(** ** C1: the fingerprint is a function of what it hashes *)

(** C1, as the code has it.  Two calls with the same captions and
    parameters return the same fingerprint of 16 characters when their
    samples are tensors with the same bytes in the same order, and when
    their samples are the same paths with the same modification times;
    nothing else of the file system matters, and the bytes of the files
    of a folder are not read. *)
Theorem fingerprint_deterministic (fs1 fs2 : FS) (a1 a2 : hash_args) :
  same_parameters a1 a2 ->
  same_samples fs1 fs2 (h_images a1) (h_images a2) ->
  _compute_image_hash fs1 a1 = _compute_image_hash fs2 a2
  /\ String.length (_compute_image_hash fs1 a1) = 16%nat.
Proof.
  intros (Hc & Hts & Hlr & Hrk & Hvm & Hon & Hmv & Hdm & Hva & Hte & Hb) Hs.
  split; [|apply fingerprint_length].
  unfold _compute_image_hash, hash_message. do 2 f_equal.
  assert (hash_images fs1 (h_images a1) = hash_images fs2 (h_images a2)
          /\ num_samples (h_images a1) = num_samples (h_images a2))
    as [-> Hn].
  { destruct Hs as [imgs1 imgs2 Hbytes|paths Hm].
    - split.
      + unfold hash_images. by rewrite !hash_tensors, Hbytes.
      + simpl. by rewrite <- (length_map tobytes imgs1), Hbytes, length_map.
    - split; [by apply hash_folder_ext|done]. }
  unfold params_str.
  by rewrite Hc, Hts, Hlr, Hrk, Hvm, Hon, Hmv, Hdm, Hva, Hte, Hb, Hn.
Qed.

(** ** C2: which changes reach the hashed message *)

(** A caption inside the joined captions: what is before it and after it
    does not depend on it. *)
Lemma join_middle (sep : string) (pre post : list string) :
  exists P S, forall c, Py.join sep (pre ++ c :: post)%list = P +:+ c +:+ S.
Proof.
  induction pre as [|x pre (P & S & IH)].
  - destruct post as [|y post].
    + exists "", "". intros c. simpl. by rewrite Str.app_nil_r.
    + exists "", (sep +:+ Py.join sep (y :: post)). by intros c.
  - exists (x +:+ sep +:+ P), S. intros c.
    replace ((x :: pre) ++ c :: post)%list
      with (x :: (pre ++ c :: post))%list by done.
    assert (forall l, l <> [] ->
            Py.join sep (x :: l) = x +:+ sep +:+ Py.join sep l) as Hcons
      by (by intros [|??]).
    rewrite Hcons by (by destruct pre). rewrite IH.
    by rewrite !Str.app_assoc.
Qed.

(** Cancels what two concatenations share at the front, then at the back. *)
Ltac cancel E :=
  repeat apply Str.app_inv_head in E;
  try apply Str.app_inv_tail in E.

Lemma params_str_sensitive (a1 a2 : hash_args) :
  h_images a1 = h_images a2 ->
  one_change a1 a2 -> params_str a1 <> params_str a2.
Proof.
  intros Himg Hch E. unfold params_str in E.
  destruct Hch; simpl in *; try (cancel E; by simplify_eq).
  - destruct (join_middle "|" pre post) as (P & S & HPS).
    rewrite !HPS in E. apply Str.app_inv_head in E.
    rewrite !Str.app_assoc in E. by cancel E.
  - cancel E. destruct lr, lr'. unfold Py.str_float in E. by simplify_eq/=.
Qed.

(** The bytes of a list of tensors in which two are singled out. *)
Lemma all_bytes_split (pre : list image) (x : image) (mid : list image)
    (y : image) (post : list image) :
  all_bytes (pre ++ x :: mid ++ y :: post)
  = (all_bytes pre ++ all_bytes (x :: mid ++ [y]) ++ all_bytes post)%list.
Proof.
  unfold all_bytes. simpl.
  rewrite !map_app, !concat_app. simpl. rewrite !map_app, !concat_app. simpl.
  by rewrite app_nil_r, <- !app_assoc.
Qed.

(** Two calls that differ in the order of two tensors feed SHA-256 the
    same message exactly when the bytes from the first of the two to the
    second are the same in both orders. *)
Lemma swap_message (fs : FS) (a : hash_args) (pre : list image) (x : image)
    (mid : list image) (y : image) (post : list image) :
  hash_message fs
    (with_images a (TensorImages (pre ++ x :: mid ++ y :: post)))
  = hash_message fs
      (with_images a (TensorImages (pre ++ y :: mid ++ x :: post)))
  <-> all_bytes (x :: mid ++ [y]) = all_bytes (y :: mid ++ [x]).
Proof.
  unfold hash_message, update. simpl. rewrite !hash_tensors. simpl.
  fold (all_bytes (pre ++ x :: mid ++ y :: post)).
  fold (all_bytes (pre ++ y :: mid ++ x :: post)).
  rewrite !all_bytes_split.
  assert (params_str
            (with_images a (TensorImages (pre ++ x :: mid ++ y :: post)))
          = params_str
              (with_images a (TensorImages (pre ++ y :: mid ++ x :: post))))
    as ->.
  { assert (length (pre ++ x :: mid ++ y :: post)
            = length (pre ++ y :: mid ++ x :: post)) as Hlen
      by (rewrite !length_app; simpl; rewrite !length_app; simpl; lia).
    unfold params_str. simpl. by rewrite Hlen. }
  split.
  - intros E. apply app_inv_tail, app_inv_head in E.
    by apply app_inv_tail in E.
  - by intros ->.
Qed.


(** ** Examples for the fingerprint *)

(** Touching a file of the folder changes the fingerprint although its
    bytes, the captions and every parameter stay the same. *)
Lemma fingerprint_depends_on_mtime :
  let a := Scenario.args (FolderImages ["/data/a.png"; "/data/b.png"]) 400 in
  let fs1 : FS :=
    {[ "/data/a.png" := Scenario.file "1700000000.0" "pixels a";
       "/data/b.png" := Scenario.file "1700000000.0" "pixels b" ]} in
  let fs2 : FS :=
    {[ "/data/a.png" := Scenario.file "1700000000.0" "pixels a";
       "/data/b.png" := Scenario.file "1700000050.5" "pixels b" ]} in
  (forall p, Os.read fs1 p = Os.read fs2 p)
  /\ _compute_image_hash fs1 a <> _compute_image_hash fs2 a.
Proof.
  split.
  - intros p. unfold Os.read.
    destruct (decide (p = "/data/a.png")) as [->|Ha]; [done|].
    destruct (decide (p = "/data/b.png")) as [->|Hb]; [done|].
    by rewrite !lookup_insert_ne, !lookup_singleton_ne by done.
  - vm_compute. discriminate.
Qed.

Lemma fingerprint_deterministic_witness :
  let a1 := Scenario.args (TensorImages [Scenario.px2; Scenario.px1]) 400 in
  let a2 :=
    Scenario.args
      (TensorImages [Image (2, 1, 3)%nat (img_np Scenario.px2); Scenario.px1])
      400 in
  _compute_image_hash ∅ a1 = _compute_image_hash Scenario.fs0 a2
  /\ String.length (_compute_image_hash ∅ a1) = 16%nat.
Proof.
  apply (fingerprint_deterministic ∅ Scenario.fs0).
  - repeat split; reflexivity.
  - apply same_tensors. reflexivity.
Defined.



(** ** Examples for the swap budget, the artifact and the run name *)




Example choose_run_name_second :
  let fs : FS :=
    {[ "/m/output/MyLora.safetensors" := Scenario.file "1.0" "";
       "/m/output/MyLora_1.safetensors" := Scenario.file "1.0" "" ]} in
  choose_run_name fs "/m/output" "MyLora" = "MyLora_2"
  /\ Os.exists_ fs (lora_path "/m/output" "MyLora_2") = false.
Proof.
  intros fs.
  pose proof (choose_run_name_fresh fs "/m/output" "MyLora") as [Hfree _].
  split; [vm_compute; reflexivity | exact Hfree].
Defined.

(** ** Steps of a run *)

Lemma bind_Ok {A B} (m : M A) (k : A -> M B) (w w' : world) (a : A) :
  m w = (Ok a, w') -> (m ≫= k) w = k a w'.
Proof. unfold mbind, M_bind, bind. by intros ->. Qed.

Lemma bind_Raise {A B} (m : M A) (k : A -> M B) (w w' : world) (e : error) :
  m w = (Raise e, w') -> (m ≫= k) w = (Raise e, w').
Proof. unfold mbind, M_bind, bind. by intros ->. Qed.

(** A run whose result is known, with the world it leaves. *)
Lemma run_eq {A} (m : M A) (w : world) (x : result A) :
  (m w).1 = x -> m w = (x, (m w).2).
Proof. destruct (m w); simpl; congruence. Qed.

(** A child whose exit code is known, with the file system it leaves. *)
Lemma child_eq (o : option (Z * FS)) (code : Z) :
  fst <$> o = Some code ->
  o = Some (code, match o with Some (_, fs') => fs' | None => ∅ end).
Proof. destruct o as [[c fs']|]; simpl; congruence. Qed.

(** ** Removing the workspace *)

Lemma rmtree_root (root : string) (fs fs' : FS) :
  Fs.rmtree root fs = Some fs' -> Os.exists_ fs' root = false.
Proof.
  unfold Fs.rmtree. destruct (Os.isdir fs root); [|done]. intros [= <-].
  unfold Os.exists_. apply bool_decide_eq_false.
  intros [n Hn]. apply map_lookup_filter_Some in Hn as [_ Hu].
  unfold Fs.under in Hu. simpl in Hu.
  by rewrite bool_decide_eq_true_2 in Hu.
Qed.

Lemma rmtree_under (root p : string) (fs fs' : FS) :
  Fs.rmtree root fs = Some fs' -> Fs.under root p = true -> fs' !! p = None.
Proof.
  unfold Fs.rmtree. destruct (Os.isdir fs root); [|done]. intros [= <-] Hu.
  apply map_lookup_filter_None. right. intros n _. simpl. by rewrite Hu.
Qed.

Lemma rmtree_other (root p : string) (fs fs' : FS) :
  Fs.rmtree root fs = Some fs' -> Fs.under root p = false ->
  fs' !! p = fs !! p.
Proof.
  unfold Fs.rmtree. destruct (Os.isdir fs root); [|done]. intros [= <-] Hu.
  destruct (fs !! p) as [n|] eqn:E.
  - by apply map_lookup_filter_Some.
  - apply map_lookup_filter_None. by left.
Qed.

(** The removal never raises: what [rmtree] raises is dropped. *)
Lemma remove_workspace_eq (temp_dir : string) (w : world) :
  remove_workspace temp_dir w = (Ok tt, removed temp_dir w).
Proof.
  unfold remove_workspace, swallow, try_fs, removed.
  by destruct (Fs.rmtree temp_dir (w_fs w)).
Qed.

Lemma finally_remove {A} (m : M A) (temp_dir : string) (w w' : world)
    (res : result A) :
  m w = (res, w') ->
  finally m (remove_workspace temp_dir) w = (res, removed temp_dir w').
Proof. unfold finally. intros ->. by rewrite remove_workspace_eq. Qed.

(** Removal touches the file system only. *)
Lemma removed_frame (temp_dir : string) (w : world) :
  w_cache (removed temp_dir w) = w_cache w
  /\ w_cache_file (removed temp_dir w) = w_cache_file w
  /\ w_spawned (removed temp_dir w) = w_spawned w
  /\ w_config (removed temp_dir w) = w_config w.
Proof. unfold removed. by destruct (Fs.rmtree temp_dir (w_fs w)). Qed.

(** A workspace that still is a directory is gone after the removal, with
    all that lies below it; one that is not stays, and so does the rest. *)
Lemma removed_dir (temp_dir : string) (w : world) :
  Os.isdir (w_fs w) temp_dir = true ->
  Os.exists_ (w_fs (removed temp_dir w)) temp_dir = false
  /\ (forall p, Fs.under temp_dir p = true ->
                w_fs (removed temp_dir w) !! p = None)
  /\ (forall p, Fs.under temp_dir p = false ->
                w_fs (removed temp_dir w) !! p = w_fs w !! p).
Proof.
  intros Hd. unfold removed.
  destruct (Fs.rmtree temp_dir (w_fs w)) as [fs'|] eqn:E.
  - simpl. split; [by eapply rmtree_root|].
    split; intros p Hp; [by eapply rmtree_under|by eapply rmtree_other].
  - unfold Fs.rmtree in E. by rewrite Hd in E.
Qed.

Lemma removed_nodir (temp_dir : string) (w : world) :
  Os.isdir (w_fs w) temp_dir = false -> removed temp_dir w = w.
Proof. intros Hd. unfold removed, Fs.rmtree. by rewrite Hd. Qed.

Section Steps.

Variable H : host.

Lemma check_cache_frame (keep : bool) (h : string) (w w' : world)
    (res : result (option string)) :
  check_cache keep h w = (res, w') ->
  w_fs w' = w_fs w /\ w_spawned w' = w_spawned w.
Proof.
  unfold check_cache. unfold_M. intros E. split_all; done.
Qed.

Lemma open_workspace_spawned (r : request) (q : prepared) (w w' : world)
    (res : result workspace) :
  open_workspace H r q w = (res, w') -> w_spawned w' = w_spawned w.
Proof.
  unfold open_workspace. unfold_M. intros E. split_all; done.
Qed.

Lemma stage_samples_spawned (image_folder : string) (q : prepared)
    (w w' : world) (res : result unit) :
  stage_samples H image_folder q w = (res, w') -> w_spawned w' = w_spawned w.
Proof.
  unfold stage_samples. unfold_M. intros E. split_all; done.
Qed.

(** When the first stage is through, it is the one process started. *)
Lemma stage_and_cache_latents_Ok (r : request) (q : prepared)
    (temp_dir : string) (w w' : world) (st : staged) :
  stage_and_cache_latents H r q temp_dir w = (Ok st, w') ->
  w_spawned w'
  = (w_spawned w
     ++ [(cache_latents_cmd q (st_python_path st)
            (musubi_script q "flux_2_cache_latents.py") (st_config_path st),
          q_musubi_path q)])%list.
Proof.
  unfold stage_and_cache_latents, python_path_of, run_stage, spawn.
  unfold mbind at 1. unfold M_bind at 1. unfold bind at 1.
  destruct (stage_samples H temp_dir q w) as [[[]|e] w1] eqn:Hs; [|done].
  apply stage_samples_spawned in Hs. revert Hs.
  unfold_M. intros Hs E. split_all; by rewrite <- Hs.
Qed.

End Steps.

(** ** C5: a failing second stage *)




(** ** C8: no samples *)

Lemma scan_folder_no_images (fs : FS) (images_path caption : string)
    (names : list string) :
  Forall (fun n => is_image_file n = false) names ->
  scan_folder fs images_path caption names = Ok ([], []).
Proof.
  induction 1 as [|n names Hn _ IH]; [done|]. simpl. by rewrite Hn.
Qed.

Lemma scan_folder_lengths (fs : FS) (images_path caption : string)
    (names imgs caps : list string) :
  scan_folder fs images_path caption names = Ok (imgs, caps) ->
  length imgs = length caps.
Proof.
  revert imgs caps. induction names as [|n names IH]; intros imgs caps; simpl.
  - by intros [= <- <-].
  - destruct (is_image_file n); [|by apply IH].
    destruct (folder_caption fs images_path caption n); [|done].
    destruct (scan_folder fs images_path caption names) as [[i c]|]; [|done].
    intros [= <- <-]. simpl. f_equal. by apply IH.
Qed.

Lemma sorted_Forall (P : string -> Prop) (names : list string) :
  Forall P names -> Forall P (sorted names).
Proof.
  intros HP. unfold sorted.
  by rewrite (merge_sort_Permutation String.le names).
Qed.

(** Resolution that succeeds has a sample, and a caption for each. *)
Lemma resolve_samples_nonempty (H : host) (r : request) (fs : FS)
    (s : samples) (caps : list string) :
  resolve_samples H fs r = Ok (s, caps) ->
  (0 < num_samples s)%nat /\ length caps = num_samples s.
Proof.
  unfold resolve_samples, folder_samples. intros E. split_all.
  all: try match goal with
         | Hs : scan_folder _ _ _ _ = Ok _ |- _ =>
             apply scan_folder_lengths in Hs; simpl in *; split; lia
         end.
  all: simpl; rewrite !length_fmap; split; lia.
Qed.

(** C8. Let the request resolve to no sample: its folder path is blank,
    or is not a directory, or is a directory that lists no file with an
    image extension, and no image input is connected.  Then the call
    raises the [ValueError] of line 408 and leaves the world as it was:
    no process was started, no directory made.  Sample resolution that
    succeeds has at least one sample and as many captions, from the folder
    or from the inputs. *)
Theorem no_samples_fails (H : host) (r : request) (w : world) :
  is_Some (FLUX_KLEIN_VARIANTS H !! "Klein Base 4B") ->
  (Py.truthy (Py.strip (images_path r)) = false
   \/ Os.isdir (w_fs w) (expanduser H (Py.strip (images_path r))) = false
   \/ exists names,
        Os.listdir (w_fs w) (expanduser H (Py.strip (images_path r)))
        = Some names
        /\ Forall (fun n => is_image_file n = false) names) ->
  collect_inputs r = [] ->
  train_flux_klein_lora H r w = (Raise (ValueError no_images_msg), w)
  /\ forall fs s caps,
       resolve_samples H fs r = Ok (s, caps) ->
       (0 < num_samples s)%nat /\ length caps = num_samples s.
Proof.
  intros [vc Hvc] Hfolder Hinputs. split.
  - assert (folder_samples H (w_fs w) r = Ok None) as Hnone.
    { unfold folder_samples.
      destruct (Py.truthy (images_path r)
                && Py.truthy (Py.strip (images_path r)))%bool eqn:Hb; [|done].
      apply andb_true_iff in Hb as [_ Hb].
      destruct Hfolder as [Hblank|[Hnodir|(names & Hls & Hno)]].
      - congruence.
      - by rewrite Hnodir.
      - rewrite Hls.
        assert (Os.isdir (w_fs w) (expanduser H (Py.strip (images_path r)))
                = true) as ->.
        { unfold Os.isdir, Os.listdir in *. by repeat case_match. }
        by rewrite scan_folder_no_images by (by apply sorted_Forall). }
    unfold train_flux_klein_lora. apply bind_Raise.
    unfold prepare, variant_config. rewrite Hvc. unfold_M.
    unfold resolve_samples. by rewrite Hnone, Hinputs.
  - apply resolve_samples_nonempty.
Qed.

(** ** C3 and C4: the cache *)

Section Cache.

Variable H : host.

Lemma train_and_record_Ok (r : request) (q : prepared) (st : staged)
    (ws : workspace) (w w' : world) (p : string) :
  train_and_record H r q st ws w = (Ok p, w') ->
  keep_lora r = true ->
  w_cache w' !! q_image_hash q = Some p /\ w_cache_file w' = w_cache w'.
Proof.
  unfold train_and_record, run_stage, spawn. intros E Hkeep.
  rewrite Hkeep in E. revert E.
  unfold_M. intros E. split_all; simpl; by rewrite lookup_insert_eq.
Qed.

(** A successful call with [keep_lora] leaves its path in the cache,
    under the fingerprint of the request. *)
Lemma train_Ok_cached (r : request) (w w' : world) (p : string) :
  train_flux_klein_lora H r w = (Ok p, w') ->
  keep_lora r = true ->
  exists q w1,
    prepare H r w = (Ok q, w1) /\ w_cache w' !! q_image_hash q = Some p.
Proof.
  unfold train_flux_klein_lora. intros E Hkeep.
  destruct (prepare H r w) as [[q|e] w1] eqn:Hprep;
    [rewrite (bind_Ok _ _ _ _ _ Hprep) in E
    |by rewrite (bind_Raise _ _ _ _ _ Hprep) in E].
  exists q, w1. split; [done|].
  destruct (check_cache (keep_lora r) (q_image_hash q) w1)
    as [[hit|e] wc] eqn:Hcc;
    [rewrite (bind_Ok _ _ _ _ _ Hcc) in E
    |by rewrite (bind_Raise _ _ _ _ _ Hcc) in E].
  destruct hit as [cached_path|].
  - unfold_M. simplify_eq. revert Hcc.
    unfold check_cache, cache_lookup. unfold_M. intros Hcc. by split_all.
  - unfold build in E.
    destruct (open_workspace H r q wc) as [[ws|e] w2] eqn:Hws;
      [rewrite (bind_Ok _ _ _ _ _ Hws) in E
      |by rewrite (bind_Raise _ _ _ _ _ Hws) in E].
    destruct (pipeline H r q ws w2) as [res w6] eqn:Hp.
    rewrite (finally_remove _ _ _ _ _ Hp) in E. simplify_eq.
    destruct (removed_frame (ws_temp_dir ws) w6) as (-> & _).
    unfold pipeline in Hp.
    destruct (stage_and_cache_latents H r q (ws_temp_dir ws) w2)
      as [[st|e] w3] eqn:Hst;
      [rewrite (bind_Ok _ _ _ _ _ Hst) in Hp
      |by rewrite (bind_Raise _ _ _ _ _ Hst) in Hp].
    destruct (cache_text_encoder H q st w3) as [[[]|e] w4] eqn:Hte;
      [rewrite (bind_Ok _ _ _ _ _ Hte) in Hp
      |by rewrite (bind_Raise _ _ _ _ _ Hte) in Hp].
    by apply train_and_record_Ok in Hp as [? _].
Qed.

End Cache.

(** C3, as the code has it.  Take a request with [keep_lora] set that
    passes [prepare].  If the cache holds its fingerprint with a path that
    exists, the call returns that path at once: no process is started and
    neither the file system nor the cache changes.  So after a successful
    call, the same request, resolving to the same fingerprint while the
    artifact still exists, returns the path of the first call and starts
    no process. *)
Theorem cache_hit_returns (H : host) (r : request) (w w1 : world)
    (q : prepared) :
  prepare H r w = (Ok q, w1) ->
  keep_lora r = true ->
  (forall cached_path,
     w_cache w !! q_image_hash q = Some cached_path ->
     Os.exists_ (w_fs w) cached_path = true ->
     train_flux_klein_lora H r w = (Ok cached_path, w1)
     /\ w_spawned w1 = w_spawned w /\ w_fs w1 = w_fs w
     /\ w_cache w1 = w_cache w /\ w_cache_file w1 = w_cache_file w)
  /\ (forall w0 q0 w01 lora_path,
        prepare H r w0 = (Ok q0, w01) ->
        train_flux_klein_lora H r w0 = (Ok lora_path, w) ->
        q_image_hash q = q_image_hash q0 ->
        Os.exists_ (w_fs w) lora_path = true ->
        train_flux_klein_lora H r w = (Ok lora_path, w1)
        /\ w_spawned w1 = w_spawned w).
Proof.
  intros Hprep Hkeep.
  pose proof (prepare_frame H _ _ _ _ Hprep) as (Hfs & Hc & Hcf & Hsp & _).
  assert (forall cached_path,
     w_cache w !! q_image_hash q = Some cached_path ->
     Os.exists_ (w_fs w) cached_path = true ->
     train_flux_klein_lora H r w = (Ok cached_path, w1)) as Hhit.
  { intros cached_path Hin Hex. unfold train_flux_klein_lora.
    rewrite (bind_Ok _ _ _ _ _ Hprep).
    unfold check_cache, cache_lookup. unfold_M.
    by rewrite Hkeep, Hc, Hin, Hfs, Hex. }
  split.
  - intros cached_path Hin Hex. split; [by apply Hhit|done].
  - intros w0 q0 w01 p Hprep0 Hfirst Hsame Hex.
    destruct (train_Ok_cached H r w0 w p Hfirst Hkeep)
      as (q0' & w01' & Hprep0' & Hcached).
    rewrite Hprep0 in Hprep0'. simplify_eq. rewrite <- Hsame in Hcached.
    split; [by apply Hhit|done].
Qed.


(** ** Examples for the cache and for the missing samples *)

(** After a first run has cached its artifact, the same request with
    [keep_lora] off finds its fingerprint in the cache with a path that
    exists, and still builds: three more processes, another path. *)
Lemma cache_bypassed_without_keep_lora :
  let first := train_flux_klein_lora Scenario.H Scenario.r0 Scenario.w0 in
  let r := Scenario.req false 0 in
  let second := train_flux_klein_lora Scenario.H r first.2 in
  exists q w1 cached_path,
    prepare Scenario.H r first.2 = (Ok q, w1)
    /\ w_cache first.2 !! q_image_hash q = Some cached_path
    /\ Os.exists_ (w_fs first.2) cached_path = true
    /\ second.1 <> Ok cached_path
    /\ length (w_spawned second.2) = (length (w_spawned first.2) + 3)%nat.
Proof.
  eexists _, _, _. split; [vm_compute; reflexivity|].
  split; [vm_compute; reflexivity|]. split; [vm_compute; reflexivity|].
  split; [vm_compute; discriminate | vm_compute; reflexivity].
Qed.

Lemma cache_hit_returns_witness :
  let first := train_flux_klein_lora Scenario.H Scenario.r0 Scenario.w0 in
  let second := train_flux_klein_lora Scenario.H Scenario.r0 first.2 in
  second.1 = Ok "/m/output/MyLora_4b_20260101_000000.safetensors"
  /\ w_spawned second.2 = w_spawned first.2.
Proof.
  intros first second.
  assert (prepare Scenario.H Scenario.r0 first.2
          = (Ok Scenario2.q0, (prepare Scenario.H Scenario.r0 first.2).2))
    as Hprep
    by (apply (run_eq (prepare Scenario.H Scenario.r0) first.2);
        vm_compute; reflexivity).
  destruct (proj1 (cache_hit_returns _ _ _ _ _ Hprep eq_refl)
              "/m/output/MyLora_4b_20260101_000000.safetensors")
    as (Hrun & Hsp & _); [vm_compute; reflexivity..|].
  unfold second. rewrite Hrun. cbv beta iota delta [fst snd].
  split; [reflexivity|exact Hsp].
Defined.



Lemma no_samples_fails_witness :
  let r :=
    Request "Klein Base 4B" 4 "/data" "/m" "dit.safetensors" "ae.safetensors"
            "qwen.safetensors" "photo of subject" 400 (Py.Float "0.0001") 32
            0 "Low (768px)" true "MyLora" "" None ∅ in
  let w :=
    World (<["/data" := Scenario.dir "1.0" ["notes.txt"; "readme.md"]]>
             Scenario.fs0)
          ∅ ∅ None [] "20260101_000000" (Py.Float "1700000000.0") in
  train_flux_klein_lora Scenario.H r w = (Raise (ValueError no_images_msg), w).
Proof.
  intros r w. apply (no_samples_fails Scenario.H r w).
  - vm_compute. eauto.
  - right. right. exists ["notes.txt"; "readme.md"].
    split; [vm_compute; reflexivity|]. repeat constructor.
  - vm_compute. reflexivity.
Defined.

(** ** Index names *)

Lemma splitext_is_ext (p : string) : is_ext (OsPath.splitext p).2.
Proof.
  unfold OsPath.splitext.
  assert (forall r rext re,
            OsPath.splitext_rev r rext = Some re ->
            exists e', re.2 = String "." e') as Hrev.
  { induction r as [|c r IH]; intros rext re; simpl; [done|].
    destruct (Ascii.eqb c "/"); [done|].
    destruct (Ascii.eqb c ".").
    - destruct (OsPath.all_dots_to_sep r); [done|]. intros [= <-]. by eexists.
    - apply IH. }
  destruct (OsPath.splitext_rev (String.rev p) "") as [re|] eqn:E.
  - right. by apply (Hrev _ _ _ E).
  - by left.
Qed.

Lemma fmt_03d_digits (n : nat) : Py.all_digits (Py.fmt_03d n) = true.
Proof.
  unfold Py.fmt_03d. pose proof (Dec.str_nat_digits n) as Hd.
  repeat case_match; try done; by rewrite Dec.all_digits_app, Hd.
Qed.

Lemma fmt_03d_inj (n m : nat) : Py.fmt_03d n = Py.fmt_03d m -> n = m.
Proof.
  unfold Py.fmt_03d.
  pose proof (Dec.str_nat_lead n) as Hn. pose proof (Dec.str_nat_lead m) as Hm.
  assert (Py.str_int (Z.of_nat n) = Py.str_int (Z.of_nat m) -> n = m) as Hinj.
  { intros E. apply (inj pretty) in E. lia. }
  destruct (Py.str_int (Z.of_nat n)) as [|a [|b [|c sn]]] eqn:En;
    destruct (Py.str_int (Z.of_nat m)) as [|a' [|b' [|c' sm]]] eqn:Em;
    simpl; rewrite ?Str.app_cons, ?Str.app_nil_l; intros E; simplify_eq/=;
    try (by apply Hinj);
    try (by discriminate (Hn _ eq_refl));
    try (by discriminate (Hm _ eq_refl)).
Qed.

(** Digits followed by an extension split in one way only. *)
Lemma digits_ext_inj (d1 d2 e1 e2 : string) :
  Py.all_digits d1 = true -> Py.all_digits d2 = true ->
  is_ext e1 -> is_ext e2 ->
  d1 +:+ e1 = d2 +:+ e2 -> d1 = d2.
Proof.
  revert d2. induction d1 as [|x d1 IH]; intros [|y d2] H1 H2 He1 He2 E.
  - done.
  - rewrite Str.app_nil_l, Str.app_cons in E.
    apply andb_true_iff in H2 as [Hy _].
    destruct He1 as [->|[e' ->]]; [done|]. by simplify_eq.
  - rewrite Str.app_nil_l, Str.app_cons in E.
    apply andb_true_iff in H1 as [Hx _].
    destruct He2 as [->|[e' ->]]; [done|]. by simplify_eq.
  - rewrite !Str.app_cons in E. simplify_eq.
    apply andb_true_iff in H1 as [_ H1]. apply andb_true_iff in H2 as [_ H2].
    f_equal. by apply (IH d2).
Qed.

Lemma staged_stem_inj (i j : nat) (e1 e2 : string) :
  is_ext e1 -> is_ext e2 ->
  staged_stem i +:+ e1 = staged_stem j +:+ e2 -> i = j.
Proof.
  unfold staged_stem. intros He1 He2 E. rewrite !Str.app_assoc in E.
  apply Str.app_inv_head in E.
  apply digits_ext_inj in E; [|apply fmt_03d_digits..|done|done].
  apply fmt_03d_inj in E. lia.
Qed.

(** ** Writing files *)

Lemma join_ne_self (a x : string) :
  x <> "" -> Py.startswith x "/" = false -> OsPath.join a x <> a.
Proof.
  intros Hx Hs E. unfold OsPath.join in E. rewrite Hs in E.
  apply (f_equal String.length) in E.
  destruct (negb (Py.truthy a) || Py.endswith a "/")%bool;
    rewrite !Str.length_app in E; destruct x; simpl in *; done || lia.
Qed.

Lemma staged_stem_start (k : nat) (e : string) :
  Py.startswith (staged_stem k +:+ e) "/" = false.
Proof. unfold staged_stem. by rewrite !Str.app_cons, startswith_cons. Qed.

Lemma staged_stem_nonempty (k : nat) (e : string) : staged_stem k +:+ e <> "".
Proof. unfold staged_stem. by rewrite !Str.app_cons. Qed.

Lemma staged_key_inj (tmp : string) (i j : nat) (e1 e2 : string) :
  is_ext e1 -> is_ext e2 ->
  OsPath.join tmp (staged_stem i +:+ e1) = OsPath.join tmp (staged_stem j +:+ e2)
  -> i = j.
Proof.
  intros He1 He2 E. apply join_inj in E; [by apply staged_stem_inj in E|].
  by rewrite !staged_stem_start.
Qed.

Lemma txt_is_ext : is_ext ".txt".
Proof. right. by eexists. Qed.

Lemma png_is_ext : is_ext ".png".
Proof. right. by eexists. Qed.

Section WriteFile.

Variables (dir name content : string) (t : Py.float) (fs : FS).

Lemma write_file_new :
  Fs.write_file dir name content t fs !! OsPath.join dir name
  = Some (Node t (File content)).
Proof. unfold Fs.write_file. by rewrite lookup_insert_eq. Qed.

Lemma write_file_other (p : string) :
  p <> OsPath.join dir name -> p <> dir ->
  Fs.write_file dir name content t fs !! p = fs !! p.
Proof.
  intros Hp Hd. unfold Fs.write_file.
  by rewrite lookup_insert_ne, lookup_alter_ne by done.
Qed.

Lemma write_file_exists (p : string) :
  Os.exists_ fs p = true ->
  Os.exists_ (Fs.write_file dir name content t fs) p = true.
Proof.
  unfold Os.exists_, Fs.write_file. intros Hp%bool_decide_eq_true.
  apply bool_decide_eq_true.
  destruct (decide (p = OsPath.join dir name)) as [->|Hne].
  - rewrite lookup_insert_eq. by eexists.
  - rewrite lookup_insert_ne by done.
    destruct (decide (p = dir)) as [->|Hd].
    + rewrite lookup_alter_eq. destruct Hp as [n ->]. by eexists.
    + by rewrite lookup_alter_ne.
Qed.

Lemma write_file_is_file (p : string) :
  is_file fs p -> is_file (Fs.write_file dir name content t fs) p.
Proof.
  unfold is_file, Os.read, Fs.write_file. intros [c Hc].
  destruct (decide (p = OsPath.join dir name)) as [->|Hne].
  - rewrite lookup_insert_eq. by eexists.
  - rewrite lookup_insert_ne by done.
    destruct (decide (p = dir)) as [->|Hd].
    + rewrite lookup_alter_eq.
      destruct (fs !! dir) as [[m [c'|es]]|]; simplify_eq/=. by eexists.
    + rewrite lookup_alter_ne by done. rewrite Hc. by eexists.
Qed.

End WriteFile.

Lemma prefix_app (a b : string) : String.prefix a (a +:+ b) = true.
Proof.
  induction a as [|c a IH]; [by destruct b|].
  rewrite Str.app_cons. simpl. by destruct (ascii_dec c c).
Qed.

(** A name joined to a directory lies below it. *)
Lemma join_under (dir name : string) :
  Py.truthy dir = true -> Py.endswith dir "/" = false ->
  Py.startswith name "/" = false ->
  Fs.under dir (OsPath.join dir name) = true.
Proof.
  intros Ht He Hs. unfold Fs.under, OsPath.join. rewrite Hs, Ht, He. simpl.
  apply orb_true_iff. right. unfold Py.startswith.
  rewrite <- Str.app_assoc. apply prefix_app.
Qed.

(** ** Staging under index names *)

Section Staging.

Variables (t : Py.float) (tmp : string).

(** The path of a staged file: the stem of its index and an extension. *)
Let key (k : nat) (e : string) : string :=
  OsPath.join tmp (staged_stem k +:+ e).

Lemma key_ne_tmp (k : nat) (e : string) : key k e <> tmp.
Proof.
  apply join_ne_self;
    [apply staged_stem_nonempty | apply staged_stem_start].
Qed.

(** A write under an index leaves every other path as it was. *)
Lemma write_key_other (k : nat) (e content : string) (t' : Py.float)
    (fs : FS) (p : string) :
  is_ext e -> p <> tmp ->
  (forall j e', (k <= j)%nat -> is_ext e' -> p <> key j e') ->
  Fs.write_file tmp (staged_stem k +:+ e) content t' fs !! p = fs !! p.
Proof.
  intros He Hp Hk. apply write_file_other; [|done]. by apply Hk.
Qed.

Lemma key_ext_inj (k : nat) (e1 e2 : string) : key k e1 = key k e2 -> e1 = e2.
Proof.
  unfold key. intros E. apply join_inj in E.
  - by apply Str.app_inv_head in E.
  - by rewrite !staged_stem_start.
Qed.

(** A source of the staging: a regular file that is not a label file by
    its extension, and lies neither at the workspace nor at a staged name
    from [idx] on. *)
Let source (idx : nat) (fs : FS) (src : string) : Prop :=
  is_file fs src /\ (OsPath.splitext src).2 <> ".txt" /\ src <> tmp
  /\ forall j e, (idx <= j)%nat -> is_ext e -> src <> key j e.

Lemma stage_folder_spec (pairs : list (string * string)) :
  forall (idx : nat) (fs : FS),
    (forall src cap, In (src, cap) pairs -> source idx fs src) ->
    exists fs',
      stage_folder t tmp idx pairs fs = Some fs'
      /\ (forall p, Os.exists_ fs p = true -> Os.exists_ fs' p = true)
      /\ (forall p, p <> tmp ->
            (forall j e, (idx <= j)%nat -> is_ext e -> p <> key j e) ->
            fs' !! p = fs !! p)
      /\ (forall k src cap,
            pairs !! k = Some (src, cap) ->
            fs' !! key (idx + k) (OsPath.splitext src).2 = fs !! src
            /\ Os.read fs' (key (idx + k) ".txt") = Some cap).
Proof.
  induction pairs as [|[src cap] rest IH]; intros idx fs Hsrc.
  - exists fs. by repeat split.
  - simpl. destruct (Hsrc src cap (or_introl eq_refl))
      as ([c Hc] & Hnotxt & Hntmp & Hnkey).
    unfold Fs.copy2. unfold Os.read in Hc.
    destruct (fs !! src) as [[t0 [c0|es]]|] eqn:Hlook; simplify_eq/=.
    set (ext := (OsPath.splitext src).2) in *.
    set (fs1 := Fs.write_file tmp
                  (("image_" +:+ Py.fmt_03d (idx + 1)) +:+ ext) c t0 fs).
    set (fs2 := Fs.write_file tmp
                  (("image_" +:+ Py.fmt_03d (idx + 1)) +:+ ".txt") cap t fs1).
    assert (is_ext ext) as Hext by apply splitext_is_ext.
    assert (forall p, p <> tmp ->
              (forall j e, (idx <= j)%nat -> is_ext e -> p <> key j e) ->
              fs2 !! p = fs !! p) as Hstep.
    { intros p Hp Hk. unfold fs2, fs1.
      rewrite (write_key_other idx ".txt"); [|apply txt_is_ext|done|done].
      by apply (write_key_other idx ext). }
    destruct (IH (S idx) fs2) as (fs' & Hrun & Hex & Hframe & Hall).
    { intros s c' Hin.
      destruct (Hsrc s c' (or_intror Hin)) as ([cs Hcs] & ? & ? & Hk).
      split; [|split; [done|split; [done|]]].
      - exists cs. unfold Os.read. by rewrite Hstep.
      - intros j e Hj. apply Hk. lia. }
    exists fs'. split; [done|]. split; [|split].
    + intros p Hp. by apply Hex, write_file_exists, write_file_exists.
    + intros p Hp Hk. rewrite Hframe; [|done|intros; apply Hk; [lia|done]].
      by apply Hstep.
    + intros [|k] s c' Hk; simpl in Hk.
      * simplify_eq. rewrite Nat.add_0_r. fold ext. split.
        -- rewrite Hframe.
           ++ unfold fs2. rewrite write_file_other.
              ** unfold fs1, key, staged_stem. by rewrite write_file_new.
              ** intros E. by apply (key_ext_inj idx ext ".txt") in E.
              ** apply key_ne_tmp.
           ++ apply key_ne_tmp.
           ++ intros j e Hj He E.
              apply staged_key_inj in E; [lia|done|done].
        -- unfold Os.read. rewrite Hframe.
           ++ unfold fs2, key, staged_stem. by rewrite write_file_new.
           ++ apply key_ne_tmp.
           ++ intros j e Hj He E.
              apply staged_key_inj in E; [lia|apply txt_is_ext|done].
      * replace (idx + S k)%nat with (S idx + k)%nat by lia.
        destruct (Hall k s c' Hk) as [Himg Hcap]. split; [|done].
        assert (In (s, c') rest) as Hin
          by (apply list_elem_of_In; by eapply list_elem_of_lookup_2).
        destruct (Hsrc s c' (or_intror Hin)) as (_ & _ & ? & ?).
        rewrite Himg. by apply Hstep.
Qed.

Variable H : host.

Let png : image -> string := png_encode H.

Lemma stage_tensors_spec (pairs : list (image * string)) :
  forall (idx : nat) (fs : FS),
    let fs' := stage_tensors H t tmp idx pairs fs in
    (forall p, Os.exists_ fs p = true -> Os.exists_ fs' p = true)
    /\ (forall p, p <> tmp ->
          (forall j e, (idx <= j)%nat -> is_ext e -> p <> key j e) ->
          fs' !! p = fs !! p)
    /\ (forall k img cap,
          pairs !! k = Some (img, cap) ->
          Os.read fs' (key (idx + k) ".png") = Some (png img)
          /\ Os.read fs' (key (idx + k) ".txt") = Some cap).
Proof.
  induction pairs as [|[img cap] rest IH]; intros idx fs; simpl.
  - by repeat split.
  - set (fs1 := Fs.write_file tmp
                  (("image_" +:+ Py.fmt_03d (idx + 1)) +:+ ".png") (png img) t fs).
    set (fs2 := Fs.write_file tmp
                  (("image_" +:+ Py.fmt_03d (idx + 1)) +:+ ".txt") cap t fs1).
    destruct (IH (S idx) fs2) as (Hex & Hframe & Hall).
    split; [|split].
    + intros p Hp. by apply Hex, write_file_exists, write_file_exists.
    + intros p Hp Hk. rewrite Hframe; [|done|intros; apply Hk; [lia|done]].
      unfold fs2, fs1.
      rewrite (write_key_other idx ".txt"); [|apply txt_is_ext|done|done].
      by apply (write_key_other idx ".png"); [apply png_is_ext|..].
    + intros [|k] i c' Hk; simpl in Hk.
      * simplify_eq. rewrite Nat.add_0_r. unfold Os.read. split.
        -- rewrite Hframe.
           ++ unfold fs2, key, staged_stem. rewrite write_file_other.
              ** unfold fs1. by rewrite write_file_new.
              ** intros E. apply join_inj in E.
                 --- apply Str.app_inv_head in E. discriminate E.
                 --- by rewrite !(staged_stem_start idx).
              ** apply not_eq_sym, not_eq_sym, key_ne_tmp.
           ++ apply key_ne_tmp.
           ++ intros j e Hj He E.
              apply staged_key_inj in E; [lia|apply png_is_ext|done].
        -- rewrite Hframe.
           ++ unfold fs2, key, staged_stem. by rewrite write_file_new.
           ++ apply key_ne_tmp.
           ++ intros j e Hj He E.
              apply staged_key_inj in E; [lia|apply txt_is_ext|done].
      * replace (idx + S k)%nat with (S idx + k)%nat by lia. by apply Hall.
Qed.

End Staging.

(** ** The samples of a folder *)

Lemma filter_StronglySorted (p : string -> bool) (l : list string) :
  StronglySorted String.le l -> StronglySorted String.le (List.filter p l).
Proof.
  induction 1 as [|x l Hs IH Hx]; simpl; [constructor|].
  destruct (p x); [|done]. constructor; [done|].
  rewrite Forall_forall in *. intros y Hy%list_elem_of_In%filter_In.
  apply Hx, list_elem_of_In, Hy.
Qed.

Lemma scan_folder_spec (fs : FS) (images_path caption : string)
    (names : list string) :
  (forall f, In f names -> is_image_file f = true ->
             Os.exists_ fs (caption_file images_path f) = true ->
             is_text_file fs (caption_file images_path f)) ->
  scan_folder fs images_path caption names
  = Ok (map (OsPath.join images_path) (List.filter is_image_file names),
        map (caption_of fs images_path caption)
            (List.filter is_image_file names)).
Proof.
  induction names as [|f names IH]; intros Hcap; [done|]. simpl.
  rewrite IH by (intros; apply Hcap; [by right|done..]).
  destruct (is_image_file f) eqn:Hf; [|done]. simpl.
  unfold folder_caption, read_text, caption_of, Py.decode.
  fold (caption_file images_path f).
  destruct (Os.exists_ fs (caption_file images_path f)) eqn:Hex.
  - destruct (Hcap f (or_introl eq_refl) Hf Hex) as (b & Hb & Hv).
    by rewrite Hb, Hv.
  - unfold Os.exists_ in Hex. apply bool_decide_eq_false in Hex.
    unfold Os.read.
    destruct (fs !! caption_file images_path f) as [n|] eqn:E; [|done].
    destruct Hex. by eexists.
Qed.

(** One caption file that does not decode makes the scan raise. *)
Lemma scan_folder_undecodable (fs : FS) (images_path caption : string)
    (names : list string) (f b : string) :
  (forall g, In g names -> is_image_file g = true ->
             Os.exists_ fs (caption_file images_path g) = true ->
             is_file fs (caption_file images_path g)) ->
  In f names -> is_image_file f = true ->
  Os.read fs (caption_file images_path f) = Some b ->
  Py.valid_utf8 b = false ->
  exists p, scan_folder fs images_path caption names
            = Raise (UnicodeDecodeError p).
Proof.
  intros Hreg Hin Hf Hb Hv.
  induction names as [|g names IH]; [done|]. simpl.
  assert (forall h, In h names -> is_image_file h = true ->
            Os.exists_ fs (caption_file images_path h) = true ->
            is_file fs (caption_file images_path h)) as Hreg'
    by (intros; apply Hreg; [by right|done..]).
  destruct (is_image_file g) eqn:Hg.
  - unfold folder_caption at 1, read_text, Py.decode.
    fold (caption_file images_path g).
    destruct (Os.exists_ fs (caption_file images_path g)) eqn:Hex.
    + destruct (Hreg g (or_introl eq_refl) Hg Hex) as [bg Hbg]. rewrite Hbg.
      destruct (Py.valid_utf8 bg) eqn:Hvg; [|by eexists].
      destruct Hin as [->|Hin]; [congruence|].
      destruct (IH Hreg' Hin) as [p ->]. by eexists.
    + destruct Hin as [->|Hin].
      { unfold Os.exists_ in Hex. apply bool_decide_eq_false in Hex.
        destruct Hex. unfold Os.read in Hb. destruct (fs !! _); [by eexists|done]. }
      destruct (IH Hreg' Hin) as [p ->]. by eexists.
  - destruct Hin as [->|Hin]; [congruence|]. by apply IH.
Qed.

(** X1. A folder that lists at least one image file is the source of the
    samples.  When every caption file there is decodes as UTF-8, the
    samples are the image files of the folder (by extension, case
    ignored) in ascending order of their names, each with the text of its
    caption file, line ends as text mode reads them and surrounding white
    space stripped, or with the default caption when it has no caption
    file.  When one caption file does not decode, the call of
    [resolve_samples] raises [UnicodeDecodeError]. *)
Theorem folder_samples_spec (H : host) (fs : FS) (r : request)
    (names : list string) :
  let folder := expanduser H (Py.strip (images_path r)) in
  let files := List.filter is_image_file (sorted names) in
  Py.truthy (Py.strip (images_path r)) = true ->
  Os.listdir fs folder = Some names ->
  files <> [] ->
  (forall f, In f files ->
             Os.exists_ fs (caption_file folder f) = true ->
             is_file fs (caption_file folder f)) ->
  ((forall f, In f files ->
              Os.exists_ fs (caption_file folder f) = true ->
              is_text_file fs (caption_file folder f)) ->
   resolve_samples H fs r
   = Ok (FolderImages (map (OsPath.join folder) files),
         map (caption_of fs folder (caption r)) files))
  /\ (forall f b,
        In f files -> Os.read fs (caption_file folder f) = Some b ->
        Py.valid_utf8 b = false ->
        exists p, resolve_samples H fs r = Raise (UnicodeDecodeError p))
  /\ StronglySorted String.le files
  /\ (forall f, In f files <-> In f names /\ is_image_file f = true).
Proof.
  intros d files Hpath Hls Hne Hreg.
  assert (Py.truthy (images_path r) = true) as Htr
    by (by destruct (images_path r)).
  assert (Os.isdir fs d = true) as Hdir.
  { unfold Os.isdir, Os.listdir in *. by repeat case_match. }
  split; [|split; [|split]].
  - intros Hcap. unfold resolve_samples, folder_samples. fold d.
    rewrite Htr, Hpath. simpl. rewrite Hdir, Hls, scan_folder_spec.
    + fold files. by destruct files.
    + intros f Hin Hf. apply Hcap. by apply filter_In.
  - intros f b Hin Hb Hv. apply filter_In in Hin as [Hin Hf].
    destruct (scan_folder_undecodable fs d (caption r) (sorted names) f b)
      as [p Hp]; try done.
    { intros g Hg Hgi. apply Hreg. by apply filter_In. }
    exists p. unfold resolve_samples, folder_samples. fold d.
    by rewrite Htr, Hpath; simpl; rewrite Hdir, Hls, Hp.
  - apply filter_StronglySorted, StronglySorted_merge_sort; apply _.
  - intros f. unfold files. rewrite filter_In. unfold sorted.
    rewrite <- !list_elem_of_In.
    by rewrite (merge_sort_Permutation String.le names).
Qed.



(** ** What a build does to the cache and to the processes *)

Section Build.

Variable H : host.

Lemma open_workspace_frame (r : request) (q : prepared) (w w' : world)
    (res : result workspace) :
  open_workspace H r q w = (res, w') ->
  w_cache w' = w_cache w /\ w_cache_file w' = w_cache_file w.
Proof. unfold open_workspace. unfold_M. intros E. split_all; done. Qed.

Lemma open_workspace_Ok (r : request) (q : prepared) (w w' : world)
    (ws : workspace) :
  open_workspace H r q w = (Ok ws, w') ->
  ws_output_folder ws = OsPath.join (q_musubi_path q) "output"
  /\ ws_lora_output_path ws = lora_path (ws_output_folder ws) (ws_run_name ws)
  /\ Os.isdir (w_fs w') (ws_temp_dir ws) = true.
Proof.
  unfold open_workspace. unfold_M. intros E. split_all.
  all: split; [done|]; split; [done|].
  all: unfold Os.isdir, Fs.mkdtemp; simpl; by rewrite lookup_insert_eq.
Qed.

Lemma run_stage_inv (cmd : list string) (cwd failed : string) (w w' : world)
    (res : result unit) :
  run_stage H cmd cwd failed w = (res, w') ->
  w_spawned w' = (w_spawned w ++ [(cmd, cwd)])%list
  /\ w_cache w' = w_cache w /\ w_cache_file w' = w_cache_file w
  /\ match res with
     | Ok _ => exists fs', run_process H cmd cwd (w_fs w) = Some (0, fs')
     | Raise (RuntimeError msg) =>
         exists code fs',
           run_process H cmd cwd (w_fs w) = Some (code, fs')
           /\ code <> 0 /\ msg = failed +:+ Py.str_int code
     | Raise (OSError _) => run_process H cmd cwd (w_fs w) = None
     | Raise _ => False
     end.
Proof.
  unfold run_stage, spawn. unfold_M. intros E. split_all.
  - repeat split; try done. apply Z.eqb_eq in Heqb. subst. by eexists.
  - repeat split; try done. apply Z.eqb_neq in Heqb. by eexists _, _.
  - by repeat split.
Qed.

Lemma stage_and_cache_latents_frame (r : request) (q : prepared)
    (temp_dir : string) (w w' : world) (res : result staged) :
  stage_and_cache_latents H r q temp_dir w = (res, w') ->
  w_cache w' = w_cache w /\ w_cache_file w' = w_cache_file w.
Proof.
  unfold stage_and_cache_latents, python_path_of, run_stage, spawn,
    stage_samples.
  unfold_M. intros E. split_all; done.
Qed.

Lemma cache_text_encoder_inv (q : prepared) (st : staged) (w w' : world)
    (res : result unit) :
  cache_text_encoder H q st w = (res, w') ->
  w_cache w' = w_cache w /\ w_cache_file w' = w_cache_file w
  /\ (res = Ok tt ->
      w_spawned w' = (w_spawned w ++ [(te_cmd_of q st, q_musubi_path q)])%list).
Proof.
  unfold cache_text_encoder, run_stage, spawn. unfold_M. intros E.
  split_all; done.
Qed.

Lemma train_and_record_inv (r : request) (q : prepared) (st : staged)
    (ws : workspace) (w w' : world) (res : result string) :
  train_and_record H r q st ws w = (res, w') ->
  w_spawned w'
  = (w_spawned w
     ++ [(train_cmd r q (st_config_path st) (ws_output_folder ws)
                    (ws_run_name ws), q_musubi_path q)])%list
  /\ match res with
     | Ok p =>
         if keep_lora r
         then w_cache w' = <[q_image_hash q := p]> (w_cache w)
              /\ w_cache_file w' = w_cache w'
         else w_cache w' = w_cache w /\ w_cache_file w' = w_cache_file w
     | Raise _ => w_cache w' = w_cache w /\ w_cache_file w' = w_cache_file w
     end.
Proof.
  unfold train_and_record, run_stage, spawn. unfold_M. intros E.
  destruct (keep_lora r); split_all; done.
Qed.

(** *** The workspace stays a directory *)

Lemma write_file_isdir (dir name content : string) (t : Py.float) (fs : FS)
    (p : string) :
  p <> OsPath.join dir name -> Os.isdir fs p = true ->
  Os.isdir (Fs.write_file dir name content t fs) p = true.
Proof.
  intros Hp. unfold Os.isdir, Fs.write_file.
  rewrite lookup_insert_ne by done.
  destruct (decide (p = dir)) as [->|Hd].
  - rewrite lookup_alter_eq. destruct (fs !! dir) as [[m [c|es]]|]; try done.
    unfold Fs.add_entry. simpl. by case_bool_decide.
  - by rewrite lookup_alter_ne.
Qed.

Lemma write_staged_isdir (tmp : string) (k : nat) (e content : string)
    (t : Py.float) (fs : FS) :
  Os.isdir fs tmp = true ->
  Os.isdir (Fs.write_file tmp (staged_stem k +:+ e) content t fs) tmp = true.
Proof.
  apply write_file_isdir, not_eq_sym, join_ne_self;
    [apply staged_stem_nonempty | apply staged_stem_start].
Qed.

Lemma stage_folder_isdir (t : Py.float) (tmp : string)
    (pairs : list (string * string)) :
  forall (idx : nat) (fs fs' : FS),
    stage_folder t tmp idx pairs fs = Some fs' ->
    Os.isdir fs tmp = true -> Os.isdir fs' tmp = true.
Proof.
  induction pairs as [|[src cap] rest IH]; intros idx fs fs'; simpl.
  - by intros [= <-].
  - unfold Fs.copy2. destruct (fs !! src) as [[t0 [c|es]]|]; try done.
    intros Hrun Hd. apply (IH _ _ _ Hrun).
    by apply (write_staged_isdir tmp idx), (write_staged_isdir tmp idx).
Qed.

Lemma stage_tensors_isdir (t : Py.float) (tmp : string)
    (pairs : list (image * string)) :
  forall (idx : nat) (fs : FS),
    Os.isdir fs tmp = true ->
    Os.isdir (stage_tensors H t tmp idx pairs fs) tmp = true.
Proof.
  induction pairs as [|[img cap] rest IH]; intros idx fs Hd; simpl; [done|].
  apply IH.
  by apply (write_staged_isdir tmp idx), (write_staged_isdir tmp idx).
Qed.

Lemma stage_samples_isdir (tmp : string) (q : prepared) (w w' : world)
    (res : result unit) :
  stage_samples H tmp q w = (res, w') ->
  Os.isdir (w_fs w) tmp = true -> Os.isdir (w_fs w') tmp = true.
Proof.
  unfold stage_samples. unfold_M. intros E Hd.
  destruct (q_images q); split_all; simplify_eq/=; try done.
  - by eapply stage_folder_isdir.
  - by apply stage_tensors_isdir.
Qed.

Section KeepDir.

Variable d : string.
Hypothesis Htools : tools_keep_dir H d.

Lemma run_stage_isdir (cmd : list string) (cwd failed : string)
    (w w' : world) (res : result unit) :
  run_stage H cmd cwd failed w = (res, w') ->
  Os.isdir (w_fs w) d = true -> Os.isdir (w_fs w') d = true.
Proof.
  unfold run_stage, spawn. unfold_M. intros E Hd.
  split_all; simpl; try done; by eapply Htools.
Qed.

Lemma stage_and_cache_latents_isdir (r : request) (q : prepared)
    (w w' : world) (res : result staged) :
  stage_and_cache_latents H r q d w = (res, w') ->
  Os.isdir (w_fs w) d = true -> Os.isdir (w_fs w') d = true.
Proof.
  unfold stage_and_cache_latents. intros E Hd.
  destruct (stage_samples H d q w) as [[[]|e] w1] eqn:Hs;
    [rewrite (bind_Ok _ _ _ _ _ Hs) in E
    |rewrite (bind_Raise _ _ _ _ _ Hs) in E; simplify_eq;
     by apply (stage_samples_isdir _ _ _ _ _ Hs)].
  apply (stage_samples_isdir _ _ _ _ _ Hs) in Hd.
  assert (Os.isdir (Fs.write_file d "dataset_config.toml"
                      (generate_dataset_config H d (p_resolution (q_preset q))
                         (p_batch_size (q_preset q)) true)
                      (w_clock w1) (w_fs w1)) d = true) as Hd'
    by (by apply write_file_isdir, Hd; apply not_eq_sym, join_ne_self).
  revert E. unfold python_path_of. unfold_M. intros E.
  split_all; try done.
  all: match goal with
       | Hr : run_stage H _ _ _ _ = (_, ?w9) |- Os.isdir (w_fs ?w9) d = true =>
           by apply run_stage_isdir in Hr
       end.
Qed.

Lemma cache_text_encoder_isdir (q : prepared) (st : staged) (w w' : world)
    (res : result unit) :
  cache_text_encoder H q st w = (res, w') ->
  Os.isdir (w_fs w) d = true -> Os.isdir (w_fs w') d = true.
Proof.
  unfold cache_text_encoder, check_exists.
  unfold mbind at 1, M_bind at 1, bind at 1. unfold get, mbind, M_bind, bind, ret, raise.
  destruct (Os.exists_ (w_fs w) _); [apply run_stage_isdir|by intros [= <- <-]].
Qed.

Lemma train_and_record_isdir (r : request) (q : prepared) (st : staged)
    (ws : workspace) (w w' : world) (res : result string) :
  train_and_record H r q st ws w = (res, w') ->
  Os.isdir (w_fs w) d = true -> Os.isdir (w_fs w') d = true.
Proof.
  unfold train_and_record. intros E Hd.
  destruct (run_stage H
              (train_cmd r q (st_config_path st) (ws_output_folder ws)
                         (ws_run_name ws))
              (q_musubi_path q) training_failed w) as [[[]|e] w1] eqn:Hr;
    [rewrite (bind_Ok _ _ _ _ _ Hr) in E
    |rewrite (bind_Raise _ _ _ _ _ Hr) in E; simplify_eq;
     by apply (run_stage_isdir _ _ _ _ _ _ Hr)].
  apply run_stage_isdir in Hr; [|done]. revert E.
  unfold_M. intros E. destruct (keep_lora r); split_all; done.
Qed.

End KeepDir.

Lemma pipeline_isdir (r : request) (q : prepared) (ws : workspace)
    (w w' : world) (res : result string) :
  tools_keep_dir H (ws_temp_dir ws) ->
  pipeline H r q ws w = (res, w') ->
  Os.isdir (w_fs w) (ws_temp_dir ws) = true ->
  Os.isdir (w_fs w') (ws_temp_dir ws) = true.
Proof.
  intros Htools E Hd. unfold pipeline in E.
  destruct (stage_and_cache_latents H r q (ws_temp_dir ws) w)
    as [[st|e] w1] eqn:Hst;
    [rewrite (bind_Ok _ _ _ _ _ Hst) in E
    |rewrite (bind_Raise _ _ _ _ _ Hst) in E; simplify_eq;
     by eapply stage_and_cache_latents_isdir].
  eapply stage_and_cache_latents_isdir in Hst; [|done..].
  destruct (cache_text_encoder H q st w1) as [[[]|e] w2] eqn:Hte;
    [rewrite (bind_Ok _ _ _ _ _ Hte) in E
    |rewrite (bind_Raise _ _ _ _ _ Hte) in E; simplify_eq;
     by eapply cache_text_encoder_isdir].
  eapply cache_text_encoder_isdir in Hte; [|done..].
  by eapply train_and_record_isdir.
Qed.

End Build.

Section BuildOutcome.

Variable H : host.

Lemma build_inv (r : request) (q : prepared) (w w' : world)
    (res : result string) :
  build H r q w = (res, w') ->
  (exists e, open_workspace H r q w = (Raise e, w') /\ res = Raise e)
  \/ (exists ws w2 w3,
        open_workspace H r q w = (Ok ws, w2)
        /\ pipeline H r q ws w2 = (res, w3)
        /\ w' = removed (ws_temp_dir ws) w3).
Proof.
  unfold build. intros E.
  destruct (open_workspace H r q w) as [[ws|e] w2] eqn:Hws.
  - rewrite (bind_Ok _ _ _ _ _ Hws) in E.
    destruct (pipeline H r q ws w2) as [res' w3] eqn:Hp.
    rewrite (finally_remove _ _ _ _ _ Hp) in E. simplify_eq.
    right. by eexists _, _, _.
  - rewrite (bind_Raise _ _ _ _ _ Hws) in E. simplify_eq. left. by eexists.
Qed.

Lemma pipeline_inv (r : request) (q : prepared) (ws : workspace)
    (w w' : world) (res : result string) :
  pipeline H r q ws w = (res, w') ->
  (exists e, stage_and_cache_latents H r q (ws_temp_dir ws) w = (Raise e, w')
             /\ res = Raise e)
  \/ (exists st w1,
        stage_and_cache_latents H r q (ws_temp_dir ws) w = (Ok st, w1)
        /\ ((exists e, cache_text_encoder H q st w1 = (Raise e, w')
                       /\ res = Raise e)
            \/ (exists w2,
                  cache_text_encoder H q st w1 = (Ok tt, w2)
                  /\ train_and_record H r q st ws w2 = (res, w')))).
Proof.
  unfold pipeline. intros E.
  destruct (stage_and_cache_latents H r q (ws_temp_dir ws) w)
    as [[st|e] w1] eqn:Hst.
  - rewrite (bind_Ok _ _ _ _ _ Hst) in E. right. exists st, w1. split; [done|].
    destruct (cache_text_encoder H q st w1) as [[[]|e] w2] eqn:Hte.
    + rewrite (bind_Ok _ _ _ _ _ Hte) in E. right. by exists w2.
    + rewrite (bind_Raise _ _ _ _ _ Hte) in E. simplify_eq. left. by eexists.
  - rewrite (bind_Raise _ _ _ _ _ Hst) in E. simplify_eq. left. by eexists.
Qed.


(** The effect of a build on the cache, by its outcome. *)
Lemma build_cache (r : request) (q : prepared) (w w' : world)
    (res : result string) :
  build H r q w = (res, w') ->
  match res with
  | Ok p =>
      if keep_lora r
      then w_cache w' = <[q_image_hash q := p]> (w_cache w)
           /\ w_cache_file w' = w_cache w'
      else w_cache w' = w_cache w /\ w_cache_file w' = w_cache_file w
  | Raise _ => w_cache w' = w_cache w /\ w_cache_file w' = w_cache_file w
  end.
Proof.
  intros [(e & Hws & ->)|(ws & w2 & w3 & Hws & Hp & ->)]%build_inv.
  - by apply open_workspace_frame in Hws.
  - apply open_workspace_frame in Hws as [Hc2 Hf2].
    destruct (removed_frame (ws_temp_dir ws) w3) as (-> & -> & _).
    apply pipeline_inv in Hp
      as [(e & Hst & ->)
         |(st & w1 & Hst & [(e & Hte & ->)|(w4 & Hte & Htr)])].
    + apply stage_and_cache_latents_frame in Hst as [-> ->]. done.
    + apply stage_and_cache_latents_frame in Hst as [Hc1 Hf1].
      apply cache_text_encoder_inv in Hte as (-> & -> & _). by rewrite Hc1, Hf1.
    + apply stage_and_cache_latents_frame in Hst as [Hc1 Hf1].
      apply cache_text_encoder_inv in Hte as (Hc4 & Hf4 & _).
      apply train_and_record_inv in Htr as [_ Htr].
      rewrite Hc4, Hf4, Hc1, Hf1, Hc2, Hf2 in Htr. done.
Qed.

(** X5. A build that raises leaves the cache and its store as they
    were: no entry is recorded for a run that failed. *)
Theorem failed_build_keeps_cache (r : request) (q : prepared) (w w' : world)
    (e : error) :
  build H r q w = (Raise e, w') ->
  w_cache w' = w_cache w /\ w_cache_file w' = w_cache_file w.
Proof. intros Hb. by apply build_cache in Hb. Qed.

(** X6. With [keep_lora] off a call never changes the cache or its
    store, whatever its outcome: nothing is looked up, healed or
    recorded. *)
Theorem no_keep_no_cache_change (r : request) (w w' : world)
    (res : result string) :
  keep_lora r = false ->
  train_flux_klein_lora H r w = (res, w') ->
  w_cache w' = w_cache w /\ w_cache_file w' = w_cache_file w.
Proof.
  intros Hkeep. unfold train_flux_klein_lora. intros E.
  destruct (prepare H r w) as [[q|e] w1] eqn:Hprep.
  - rewrite (bind_Ok _ _ _ _ _ Hprep) in E.
    apply prepare_frame in Hprep as (_ & Hc & Hf & _).
    rewrite Hkeep in E. unfold check_cache, cache_lookup in E.
    unfold_M. apply build_cache in E. rewrite Hkeep in E.
    destruct res; by rewrite <- Hc, <- Hf.
  - rewrite (bind_Raise _ _ _ _ _ Hprep) in E. simplify_eq.
    by apply prepare_frame in Hprep as (_ & Hc & Hf & _).
Qed.


End BuildOutcome.

(** ** C10: the output path of a build is free *)

Lemma lora_path_last (output_folder run_name : string) :
  Py.last_char (lora_path output_folder run_name) = Some "s"%char.
Proof.
  unfold lora_path.
  assert (run_name +:+ ".safetensors" <> "") as Hne.
  { intros E. apply (f_equal String.length) in E.
    rewrite Str.length_app in E. simpl in E. lia. }
  rewrite last_char_join by done. by rewrite Str.last_char_app.
Qed.

Lemma temp_name_last (tmp prefix : string) (k : Z) :
  exists c, Py.last_char (Fs.temp_name tmp prefix k) = Some c
            /\ Py.isdigit c = true.
Proof.
  destruct (Dec.str_int_last k) as (c & Hc & Hd). exists c. split; [|done].
  assert (Py.str_int k <> "") as Hne by (intros E; by rewrite E in Hc).
  unfold Fs.temp_name. rewrite last_char_join.
  - by rewrite Str.last_char_app.
  - intros E. apply (f_equal String.length) in E.
    rewrite Str.length_app in E. destruct (Py.str_int k); simpl in *; [done|lia].
Qed.

(** C10.  A build that opens its workspace has chosen its output path
    [<musubi_path>/output/<run name>.safetensors] so that nothing exists
    there, neither when the call began nor when the stages start: the run
    name is the derived one when the path of that one is free, and
    otherwise the derived name suffixed with [_] and the smallest counter
    from 1 on whose path is free.  Making the output folder and the
    temporary directory does not change which of these paths exist. *)
Theorem open_workspace_fresh_path (H : host) (r : request) (q : prepared)
    (w w2 : world) (ws : workspace) :
  open_workspace H r q w = (Ok ws, w2) ->
  let base := run_name_of r (q_image_hash q) (w_now w) in
  let out := OsPath.join (q_musubi_path q) "output" in
  ws_output_folder ws = out
  /\ ws_lora_output_path ws = lora_path out (ws_run_name ws)
  /\ Os.exists_ (w_fs w) (ws_lora_output_path ws) = false
  /\ Os.exists_ (w_fs w2) (ws_lora_output_path ws) = false
  /\ (Os.exists_ (w_fs w) (lora_path out base) = false ->
      ws_run_name ws = base)
  /\ (Os.exists_ (w_fs w) (lora_path out base) = true ->
      exists counter,
        ws_run_name ws = numbered base counter /\ 1 <= counter
        /\ forall c, 1 <= c < counter ->
             Os.exists_ (w_fs w) (lora_path out (numbered base c)) = true).
Proof.
  intros Hws base out.
  assert (exists fs1,
            (forall n, Os.exists_ fs1 (lora_path out n)
                       = Os.exists_ (w_fs w) (lora_path out n))
            /\ ws = Workspace (choose_run_name fs1 out base) out
                       (lora_path out (choose_run_name fs1 out base))
                       (Fs.mkdtemp (gettempdir H) temp_prefix (w_clock w) fs1).1
            /\ w_fs w2
               = (Fs.mkdtemp (gettempdir H) temp_prefix (w_clock w) fs1).2)
    as (fs1 & Hsame & -> & Hfs2).
  { revert Hws. unfold open_workspace, Fs.makedirs. unfold_M. intros Hws.
    split_all.
    - exists (w_fs w). by repeat split.
    - exists (<[out := Node (w_clock w) (Dir [])]> (w_fs w)).
      split; [|by repeat split].
      intros n. unfold Os.exists_. rewrite lookup_insert_ne; [done|].
      intros E. pose proof (lora_path_last out n) as Hl.
      rewrite <- E in Hl. unfold out in Hl. by rewrite last_char_join in Hl. }
  simpl.
  destruct (choose_run_name_fresh fs1 out base) as (Hfree & Hbase & Hnum).
  rewrite !Hsame in *.
  split; [done|]. split; [done|]. split; [done|]. split; [|split; [done|]].
  - rewrite Hfs2. unfold Fs.mkdtemp. simpl. unfold Os.exists_.
    rewrite lookup_insert_ne.
    + fold (Os.exists_ fs1 (lora_path out (choose_run_name fs1 out base))).
      by rewrite Hsame.
    + intros E.
      destruct (temp_name_last (gettempdir H) temp_prefix
                  (Fs.next_free fs1 (Fs.temp_name (gettempdir H) temp_prefix) 0))
        as (c & Hc & Hd).
      rewrite E, lora_path_last in Hc. by simplify_eq.
  - intros Hex. destruct (Hnum Hex) as (counter & ? & ? & Hall).
    exists counter. split; [done|]. split; [done|].
    intros c Hc. rewrite <- Hsame. by apply Hall.
Qed.

(** ** A failing third stage *)

Section StageFailures.

Variable H : host.

(** A lookup that reports a miss leaves no entry under the fingerprint. *)
Lemma check_cache_miss (h : string) (w w' : world) :
  check_cache true h w = (Ok None, w') -> w_cache w' !! h = None.
Proof.
  unfold check_cache, cache_lookup. unfold_M. intros E.
  split_all; simpl; [by rewrite lookup_delete_eq|done].
Qed.


End StageFailures.

(** ** What a prepared request can rely on *)

Section Validation.

Variable H : host.

Lemma check_usable_Ok (p : option string) (what : string) (w w' : world)
    (s : string) :
  check_usable p what w = (Ok s, w') ->
  w' = w /\ p = Some s /\ s <> "" /\ Os.exists_ (w_fs w) s = true.
Proof.
  unfold check_usable, unusable. unfold_M. intros E. split_all.
  apply orb_false_iff in Heqb as [Ht He].
  apply negb_false_iff in Ht, He. repeat split; try done.
  intros ->. done.
Qed.

(** X9. A request that gets through [prepare] has its tools and models
    on disk: the accelerate launcher, the training script and the three
    model files exist, and the model paths are not empty. *)
Theorem prepare_validated (r : request) (w w1 : world) (q : prepared) :
  prepare H r w = (Ok q, w1) ->
  Os.exists_ (w_fs w) (q_accelerate_path q) = true
  /\ Os.exists_ (w_fs w) (q_train_script q) = true
  /\ Os.exists_ (w_fs w) (q_dit_path q) = true
  /\ Os.exists_ (w_fs w) (q_vae_path q) = true
  /\ Os.exists_ (w_fs w) (q_text_encoder_path q) = true
  /\ q_dit_path q <> "" /\ q_vae_path q <> ""
  /\ q_text_encoder_path q <> "".
Proof.
  unfold prepare, check_exists.
  unfold mbind, M_bind, bind, ret, raise, lift, get, save_settings, modify.
  intros E.
  repeat match goal with
         | E : context [match check_usable ?p ?m ?w0 with _ => _ end] |- _ =>
             let Hu := fresh "Hu" in
             destruct (check_usable p m w0) as [[?|?] ?] eqn:Hu;
             [apply check_usable_Ok in Hu as (-> & _ & ? & ?)|done]
         | E : context [match ?x with _ => _ end] |- _ =>
             destruct x eqn:?; simplify_eq/=
         end.
  by repeat split.
Qed.


End Validation.

(** ** What the fingerprint and the run do not depend on *)

Section Independence.

Variable H : host.

(** X11. The fingerprint does not cover the run options: two requests
    that differ only in [keep_lora], the custom interpreter and the
    installation directory, prepared on one file system, have the same
    fingerprint. *)
Theorem fingerprint_ignores_run_options (r : request) (keep : bool)
    (python_exe musubi : string) (w w1 w' w1' : world) (q q' : prepared) :
  w_fs w' = w_fs w ->
  prepare H r w = (Ok q, w1) ->
  prepare H (with_run_options r keep python_exe musubi) w' = (Ok q', w1') ->
  q_image_hash q' = q_image_hash q.
Proof.
  intros Hfs Hq Hq'.
  destruct (prepare_Ok H _ _ _ _ Hq)
    as (vc & sc & ps & Hvc & Hsc & _ & _ & _ & Hcap & _ & _ & _ & _ & _ & _ & ->).
  destruct (prepare_Ok H _ _ _ _ Hq')
    as (vc' & sc' & ps' & Hvc' & Hsc' & _ & _ & _ & Hcap' & _ & _ & _ & _ & _
        & _ & ->).
  rewrite Hfs in *.
  assert (vc' = vc) as -> by (destruct r; simpl in *; congruence).
  assert (sc' = sc) as ->.
  { assert (resolve_samples H (w_fs w)
              (with_run_options r keep python_exe musubi)
            = resolve_samples H (w_fs w) r) as E by (by destruct r).
    congruence. }
  rewrite Hcap, Hcap'. by destruct r.
Qed.

Lemma cap_blocks_above (b ceiling : Z) : ceiling < b -> cap_blocks b ceiling = ceiling.
Proof. unfold cap_blocks. intros Hb. case_match; [done|]. lia. Qed.

(** X12. Above the ceiling of the variant the swap budget makes no
    difference: two requests that differ only in swap budgets beyond it
    run alike, with one fingerprint, the same commands, the same result
    and the same final state. *)
Theorem swap_budget_above_ceiling (r : request) (b : Z) (vc : variant)
    (w : world) :
  variant_config H (model_variant r) = Ok vc ->
  max_blocks_to_swap vc < blocks_to_swap r ->
  max_blocks_to_swap vc < b ->
  train_flux_klein_lora H (with_blocks_to_swap r b) w
  = train_flux_klein_lora H r w.
Proof.
  intros Hvc Hr Hb.
  assert (prepare H (with_blocks_to_swap r b) w = prepare H r w) as Hprep.
  { unfold prepare. destruct r. simpl in *. rewrite Hvc.
    rewrite !(bind_Ok (lift (Ok vc)) _ w w vc eq_refl).
    by rewrite !cap_blocks_above by done. }
  unfold train_flux_klein_lora.
  destruct (prepare H r w) as [[q|e] w1] eqn:Hp.
  - rewrite (bind_Ok _ _ _ _ _ Hp), (bind_Ok _ _ _ _ _ Hprep). by destruct r.
  - by rewrite (bind_Raise _ _ _ _ _ Hp), (bind_Raise _ _ _ _ _ Hprep).
Qed.

End Independence.

(** ** The interpreter and the launcher *)

(** X13. The program of the virtual environment is looked for under
    [.venv] first and [venv] second: the path returned is the first of
    the two that exists, and when neither exists it is the one under
    [venv], which then does not exist. *)
Theorem venv_path_spec (fs : FS) (musubi_path prog : string) :
  let dot := OsPath.join4 musubi_path ".venv" "bin" prog in
  let plain := OsPath.join4 musubi_path "venv" "bin" prog in
  (Os.exists_ fs dot = true -> venv_path fs musubi_path prog = dot)
  /\ (Os.exists_ fs dot = false -> venv_path fs musubi_path prog = plain)
  /\ (Os.exists_ fs (venv_path fs musubi_path prog) = false <->
      Os.exists_ fs dot = false /\ Os.exists_ fs plain = false).
Proof.
  intros dot plain. unfold venv_path. fold dot plain.
  destruct (Os.exists_ fs dot) eqn:Hd, (Os.exists_ fs plain) eqn:Hp;
    rewrite ?Hd, ?Hp; repeat split; try done; by intros [??].
Qed.

(** ** The image inputs *)

Lemma seqZ_sorted (m n : Z) : StronglySorted Z.lt (seqZ m n).
Proof.
  remember (Z.to_nat n) as k eqn:Hk. revert m n Hk.
  induction k as [|k IH]; intros m n Hk.
  - rewrite seqZ_nil by lia. constructor.
  - rewrite seqZ_cons by lia. constructor; [apply IH; lia|].
    apply Forall_seqZ. lia.
Qed.

(** The values a partial function has along a sorted list, with the
    arguments at which it has them. *)
Lemma omap_indices {B} (f : Z -> option B) (l : list Z) :
  StronglySorted Z.lt l ->
  exists idx,
    StronglySorted Z.lt idx
    /\ (forall i, In i idx <-> In i l /\ is_Some (f i))
    /\ Forall2 (fun i s => f i = Some s) idx (omap f l).
Proof.
  induction 1 as [|x l Hs (idx & Hidx & Hin & Hall) Hx]; simpl.
  - exists []. split; [constructor|]. split; [|constructor].
    intros i. simpl. tauto.
  - destruct (f x) as [s|] eqn:Hf.
    + exists (x :: idx). split; [|split].
      * constructor; [done|]. rewrite Forall_forall in *.
        intros i Hi%list_elem_of_In%Hin. apply Hx, list_elem_of_In, Hi.
      * intros i. simpl. rewrite Hin. split.
        -- intros [<-|[? ?]]; [by split; [left|eexists]|by split; [right|]].
        -- intros [[<-|?] ?]; [by left|by right].
      * by constructor.
    + exists idx. split; [done|]. split; [|done].
      intros i. rewrite Hin. split.
      * intros [? ?]. by split; [right|].
      * intros [[<-|?] Hsome]; [|done]. rewrite Hf in Hsome. by destruct Hsome.
Qed.

(** X14. The inline samples are exactly those of the connected image
    inputs, one for each and in the order of the inputs: input 1,
    whatever [inputcount] is, and the inputs 2 to [inputcount]; an image
    connected beyond [inputcount] is not used.  Each sample has the
    caption of its own input when that is not empty, and the default
    caption otherwise. *)
Theorem collect_inputs_spec (r : request) :
  exists idx : list Z,
    StronglySorted Z.lt idx
    /\ (forall i, In i idx <->
                  (i = 1 \/ 2 <= i <= inputcount r)
                  /\ is_Some (input_image r i))
    /\ Forall2 (fun i s => input_image r i = Some s.1
                           /\ s.2 = input_caption r i)
               idx (collect_inputs r).
Proof.
  set (f := fun i => (fun img => (img, input_caption r i)) <$> input_image r i).
  assert (collect_inputs r = omap f (1 :: seqZ 2 (inputcount r - 1))) as ->.
  { assert (forall (g : Z -> option (image * string)) x l,
              omap g (x :: l)
              = match g x with Some y => y :: omap g l | None => omap g l end)
      as Hcons by done.
    assert (f 1
            = match image_1 r with
              | Some img =>
                  Some (img, or_default (kw_caption (kwargs r) "caption_1")
                                        (caption r))
              | None => None
              end) as Hfirst.
    { unfold f, input_image, input_caption.
      change ("caption_" +:+ Py.str_int 1) with "caption_1".
      by destruct (image_1 r). }
    unfold collect_inputs. rewrite Hcons, Hfirst.
    replace (omap f (seqZ 2 (inputcount r - 1)))
      with (omap (fun i =>
                    match kw_image (kwargs r) ("image_" +:+ Py.str_int i) with
                    | Some img =>
                        Some (img, or_default
                                     (kw_caption (kwargs r)
                                        ("caption_" +:+ Py.str_int i))
                                     (caption r))
                    | None => None
                    end) (seqZ 2 (inputcount r - 1))).
    - by destruct (image_1 r).
    - apply list_omap_ext, Forall_Forall2_diag, Forall_seqZ. intros i Hi.
      unfold f, input_image, input_caption.
      assert ((i =? 1)%Z = false) as -> by lia.
      by destruct (kw_image (kwargs r) _). }
  destruct (omap_indices f (1 :: seqZ 2 (inputcount r - 1)))
    as (idx & Hs & Hin & Hall).
  { constructor; [apply seqZ_sorted|]. apply Forall_seqZ. lia. }
  exists idx. split; [done|]. split.
  - intros i. rewrite Hin. simpl. rewrite <- list_elem_of_In, elem_of_seqZ.
    unfold f. rewrite fmap_is_Some.
    split.
    + intros [[<-|Hi] Hsome]; (split; [|done]); [by left|right; lia].
    + intros [[->|Hi] Hsome]; (split; [|done]); [by left|right; lia].
  - eapply Forall2_impl; [exact Hall|]. intros i [img cap]. unfold f. simpl.
    destruct (input_image r i); intros [=]; by subst.
Qed.

(** ** The characters of a fingerprint *)

Lemma hex_digit_in (x : Z) : In (Sha256.hex_digit x) hex_digits.
Proof.
  unfold Sha256.hex_digit.
  assert (Z.to_nat (Z.land x 15) < 16)%nat as Hlt.
  { assert (0 <= Z.land x 15 < 16).
    { change 15 with (Z.ones 4). rewrite Z.land_ones by lia.
      apply Z.mod_pos_bound. lia. }
    lia. }
  revert Hlt. generalize (Z.to_nat (Z.land x 15)). intros n Hn.
  do 16 (destruct n as [|n]; [vm_compute; tauto|]). lia.
Qed.

(** X15. A fingerprint is made of 16 lowercase hexadecimal digits. *)
Theorem fingerprint_hex (fs : FS) (a : hash_args) :
  String.length (_compute_image_hash fs a) = 16%nat
  /\ Forall (fun c => In c hex_digits)
            (list_ascii_of_string (_compute_image_hash fs a)).
Proof.
  split; [apply fingerprint_length|].
  unfold _compute_image_hash, Sha256.hexdigest.
  generalize (Sha256.digest (map Sha256.byte_val (hash_message fs a))).
  intros s. cbn [Sha256.hex_state Sha256.hex_word Py.take list_ascii_of_string].
  repeat (constructor; [apply hex_digit_in|]). constructor.
Qed.

(** ** The presets of the Z-Image Base template *)

(** X16. Every preset of [MUSUBI_ZIMAGE_BASE_VRAM_PRESETS] swaps between
    0 and 28 blocks, the maximum the file states, trains with batch size
    1, sets [fp8_llm] exactly when it sets [fp8_scaled], swaps blocks only
    together with gradient checkpointing and fp8, and has the resolution
    its label announces. *)
Theorem zimage_presets_well_formed (label : string) (p : ZImageBase.preset) :
  ZImageBase.MUSUBI_ZIMAGE_BASE_VRAM_PRESETS !! label = Some p ->
  0 <= ZImageBase.blocks_to_swap p <= 28
  /\ ZImageBase.batch_size p = 1
  /\ ZImageBase.fp8_llm p = ZImageBase.fp8_scaled p
  /\ (0 < ZImageBase.blocks_to_swap p ->
      ZImageBase.gradient_checkpointing p = true
      /\ ZImageBase.fp8_scaled p = true)
  /\ ZImageBase.contains
       ("(" +:+ Py.str_int (ZImageBase.resolution p) +:+ "px)") label = true.
Proof.
  intros Hp.
  assert (ZImageBase.well_formed label p = true) as Hwf.
  { unfold ZImageBase.MUSUBI_ZIMAGE_BASE_VRAM_PRESETS in Hp.
    apply elem_of_list_to_map_2, list_elem_of_In in Hp. simpl in Hp.
    repeat (destruct Hp as [[= <- <-]|Hp]; [vm_compute; reflexivity|]).
    destruct Hp. }
  unfold ZImageBase.well_formed in Hwf.
  repeat (apply andb_true_iff in Hwf as [Hwf ?]).
  apply Z.leb_le in Hwf.
  repeat match goal with
         | Hb : Z.leb _ _ = true |- _ => apply Z.leb_le in Hb
         | Hb : Z.eqb _ _ = true |- _ => apply Z.eqb_eq in Hb
         | Hb : Bool.eqb _ _ = true |- _ => apply Bool.eqb_prop in Hb
         end.
  repeat split; try done; try lia.
  all: match goal with
       | Hi : implb _ _ = true, Hpos : 0 < _ |- _ =>
           apply Z.ltb_lt in Hpos; rewrite Hpos in Hi; simpl in Hi;
           apply andb_true_iff in Hi as [??]; done
       end.
Qed.

(** ** Examples for the further properties *)

Lemma open_workspace_fresh_path_witness :
  exists ws,
    (open_workspace Scenario.H Scenario.r0 Scenario2.q0 Scenario2.w_taken).1
    = Ok ws
    /\ ws_run_name ws = "MyLora_4b_20260101_000000_2"
    /\ Os.exists_ (w_fs Scenario2.w_taken) (ws_lora_output_path ws) = false.
Proof.
  eexists. split; [vm_compute; reflexivity|]. split; [reflexivity|].
  refine (proj1 (proj2 (proj2
            (open_workspace_fresh_path Scenario.H Scenario.r0 Scenario2.q0
               Scenario2.w_taken _ _ _)))).
  apply (run_eq (open_workspace Scenario.H Scenario.r0 Scenario2.q0)
           Scenario2.w_taken).
  vm_compute. reflexivity.
Defined.

Lemma folder_samples_spec_witness :
  resolve_samples Scenario.H Scenario2.fs_folder Scenario2.r_folder
  = Ok (FolderImages ["/data/a.jpg"; "/data/b.PNG"],
        ["a cat" +:+ Scenario2.lf +:+ "on a mat"; "photo of subject"])
  /\ exists p,
       resolve_samples Scenario.H Scenario2.fs_latin1 Scenario2.r_folder
       = Raise (UnicodeDecodeError p).
Proof.
  split.
  - refine (proj1 (folder_samples_spec Scenario.H Scenario2.fs_folder
                     Scenario2.r_folder
                     ["b.PNG"; "notes.md"; "a.jpg"; "a.txt"] _ _ _ _) _).
    + vm_compute. reflexivity.
    + vm_compute. reflexivity.
    + vm_compute. discriminate.
    + intros f Hin Hex. vm_compute in Hin. destruct Hin as [<-|[<-|[]]].
      * vm_compute. eauto.
      * vm_compute in Hex. discriminate Hex.
    + intros f Hin Hex. vm_compute in Hin. destruct Hin as [<-|[<-|[]]].
      * eexists. split; vm_compute; reflexivity.
      * vm_compute in Hex. discriminate Hex.
  - refine (proj1 (proj2 (folder_samples_spec Scenario.H Scenario2.fs_latin1
                            Scenario2.r_folder
                            ["b.PNG"; "notes.md"; "a.jpg"; "a.txt"] _ _ _ _))
              "a.jpg" _ _ _ _).
    + vm_compute. reflexivity.
    + vm_compute. reflexivity.
    + vm_compute. discriminate.
    + intros f Hin Hex. vm_compute in Hin. destruct Hin as [<-|[<-|[]]].
      * vm_compute. eauto.
      * vm_compute in Hex. discriminate Hex.
    + vm_compute. tauto.
    + vm_compute. reflexivity.
    + vm_compute. reflexivity.
Defined.



(** The tool whose second stage fails leaves a partial file and never
    touches the workspace directory itself. *)
Lemma failing_tool_keeps_workspace :
  tools_keep_dir Scenario.H_failing "/tmp/comfy_musubi_flux_klein_0".
Proof.
  intros cmd cwd fs code fs' Hrun Hd.
  change (Scenario.failing_tool cmd cwd fs = Some (code, fs')) in Hrun.
  unfold Scenario.failing_tool, Scenario.tool in Hrun.
  repeat case_match; simplify_eq; try done.
  - unfold Os.isdir. rewrite lookup_insert_ne; [done|].
    intros E. apply (f_equal Py.last_char) in E.
    rewrite Str.last_char_app in E by done. discriminate E.
  - apply write_file_isdir; [|done].
    intros E. apply (f_equal Py.last_char) in E.
    rewrite last_char_join, Str.last_char_app in E; [discriminate E|done|].
    intros E'. apply (f_equal String.length) in E'.
    rewrite Str.length_app in E'. simpl in E'. lia.
Qed.


Lemma failed_build_keeps_cache_witness :
  w_cache (build Scenario.H_failing Scenario.r0 Scenario2.q0
             Scenario.w_stale).2
  = w_cache Scenario.w_stale
  /\ w_cache_file (build Scenario.H_failing Scenario.r0 Scenario2.q0
                     Scenario.w_stale).2
     = w_cache_file Scenario.w_stale.
Proof.
  eapply (failed_build_keeps_cache Scenario.H_failing Scenario.r0 Scenario2.q0).
  apply run_eq. vm_compute. reflexivity.
Defined.

Lemma no_keep_no_cache_change_witness :
  w_cache (train_flux_klein_lora Scenario.H (Scenario.req false 0)
             Scenario.w_stale).2
  = w_cache Scenario.w_stale
  /\ w_cache_file (train_flux_klein_lora Scenario.H (Scenario.req false 0)
                     Scenario.w_stale).2
     = w_cache_file Scenario.w_stale.
Proof.
  eapply (no_keep_no_cache_change Scenario.H (Scenario.req false 0));
    [reflexivity | apply surjective_pairing].
Defined.



Lemma prepare_validated_witness :
  exists q,
    (prepare Scenario.H Scenario.r0 Scenario.w0).1 = Ok q
    /\ Os.exists_ (w_fs Scenario.w0) (q_accelerate_path q) = true.
Proof.
  eexists. split; [vm_compute; reflexivity|].
  refine (proj1 (prepare_validated Scenario.H Scenario.r0 Scenario.w0 _ _ _)).
  apply run_eq. vm_compute. reflexivity.
Defined.


Lemma fingerprint_ignores_run_options_witness :
  exists q q',
    (prepare Scenario.H Scenario.r0 Scenario.w0).1 = Ok q
    /\ (prepare Scenario.H (with_run_options Scenario.r0 false "" " /m ")
                           Scenario.w_stale).1
       = Ok q'
    /\ q_image_hash q' = q_image_hash q.
Proof.
  eexists _, _.
  split; [vm_compute; reflexivity|]. split; [vm_compute; reflexivity|].
  eapply (fingerprint_ignores_run_options Scenario.H Scenario.r0 false ""
            " /m " Scenario.w0 _ Scenario.w_stale);
    [reflexivity | apply run_eq; vm_compute; reflexivity
     | apply run_eq; vm_compute; reflexivity].
Defined.

Lemma swap_budget_above_ceiling_witness :
  train_flux_klein_lora Scenario.H
    (with_blocks_to_swap (Scenario.req true 14) 16) Scenario.w0
  = train_flux_klein_lora Scenario.H (Scenario.req true 14) Scenario.w0.
Proof.
  apply (swap_budget_above_ceiling Scenario.H (Scenario.req true 14) 16
           (Variant "klein-base-4b" 13)).
  - vm_compute. reflexivity.
  - reflexivity.
  - reflexivity.
Defined.

Lemma venv_path_spec_witness :
  venv_path Scenario.fs0 "/m" "python" = "/m/venv/bin/python".
Proof.
  apply (proj1 (proj2 (venv_path_spec Scenario.fs0 "/m" "python"))).
  vm_compute. reflexivity.
Defined.

Example collect_inputs_connected :
  collect_inputs Scenario2.r_inputs
  = [(Scenario.px1, "photo of subject"); (Scenario.px2, "two pixels");
     (Scenario.px1, "photo of subject")].
Proof. vm_compute. reflexivity. Qed.

Lemma zimage_presets_well_formed_witness :
  ZImageBase.contains "(512px)" "Min (512px)" = true.
Proof.
  exact (proj2 (proj2 (proj2 (proj2
           (zimage_presets_well_formed "Min (512px)"
              (ZImageBase.Preset "adamw8bit" "bf16" 1 true true true 28 512)
              eq_refl))))).
Defined.
